(** * The contact form of the landing page: submission, report and export

    A shallow embedding of [components/contact-form.tsx]: the validation
    schema [formSchema], the asynchronous submit handler [onSubmit], the PDF
    export [handleDownloadPDF], the copy button's click handler and the parts
    of the rendered view that depend on the component's state; and of the
    handlers of [components/header.tsx] and [components/hero-section.tsx].

    Conventions.
    - A JavaScript string is a [string]; each character stands for one UTF-16
      code unit, so [String.length] is the [length] property.
    - A JavaScript value is a [value]; numbers are restricted to the integers
      of magnitude below 2^53, which print as their decimal digits.
    - The component's React state, the form library's store, the notification
      list and the observable host effects (requests sent, clipboard,
      downloads, timers) are the fields of one record, [State].  State updates
      are taken to be committed before the next event is handled.
    - Handlers run in [M], a state monad in which a computation either
      returns or throws; what it wrote before throwing stays written.
    - An [await] is a suspension point: the host's answer comes back as an
      event of the step function [step].  The same handler is also given in
      one piece, [onSubmit], with the host's answer as an argument. *)

From Stdlib Require Import String Ascii List Bool NArith ZArith Lia DecimalString.
Import ListNotations.
Local Open Scope string_scope.

Set Warnings "-register-all".

(** ** JavaScript values *)

Inductive value : Type :=
| VUndefined
| VNull
| VBool (b : bool)
| VNum (n : Z)
| VStr (s : string)
| VArr (items : list value)
| VObj (props : list (string * value)).

(** [ToBoolean]: what [v && ...] and [v || ...] test. *)
Definition truthy (v : value) : bool :=
  match v with
  | VUndefined | VNull => false
  | VBool b => b
  | VNum n => negb (n =? 0)%Z
  | VStr s => negb (s =? "")
  | VArr _ | VObj _ => true
  end.

(** [a || b] *)
Definition js_or (a b : value) : value := if truthy a then a else b.

Inductive exn : Type :=
| Error (message : string)
| TypeError (message : string)
| SyntaxError (message : string).

Fixpoint lookup (k : string) (props : list (string * value)) : option value :=
  match props with
  | [] => None
  | (k', v) :: rest => if k =? k' then Some v else lookup k rest
  end.

(** [v.k] for a key [k] that no prototype defines (such as [full_report]):
    reading a property of [null] or [undefined] throws, an object answers
    with its own property, anything else with [undefined].  [props] lists an
    object's own properties, each key once. *)
Definition get_prop (v : value) (k : string) : exn + value :=
  match v with
  | VUndefined =>
      inl (TypeError ("Cannot read properties of undefined (reading '" ++ k ++ "')"))
  | VNull =>
      inl (TypeError ("Cannot read properties of null (reading '" ++ k ++ "')"))
  | VObj props =>
      inr match lookup k props with Some x => x | None => VUndefined end
  | _ => inr VUndefined
  end.

(** ** [JSON.stringify] *)

Definition dquote : ascii := ascii_of_N 34.
Definition backslash : ascii := ascii_of_N 92.

Definition hex_digit (n : N) : ascii :=
  match get (N.to_nat n) "0123456789abcdef" with
  | Some c => c
  | None => "0"%char
  end.

Definition str2 (a b : ascii) : string := String a (String b EmptyString).

(** One code unit inside a JSON string literal. *)
Definition quote_char (c : ascii) : string :=
  let n := N_of_ascii c in
  if (n =? 34)%N then str2 backslash dquote
  else if (n =? 92)%N then str2 backslash backslash
  else if (n =? 8)%N then str2 backslash "b"
  else if (n =? 12)%N then str2 backslash "f"
  else if (n =? 10)%N then str2 backslash "n"
  else if (n =? 13)%N then str2 backslash "r"
  else if (n =? 9)%N then str2 backslash "t"
  else if (n <? 32)%N then
    str2 backslash "u" ++ "00" ++ str2 (hex_digit (n / 16)) (hex_digit (n mod 16))
  else String c EmptyString.

Fixpoint quote_chars (s : string) : string :=
  match s with
  | EmptyString => EmptyString
  | String c rest => quote_char c ++ quote_chars rest
  end.

Definition quote (s : string) : string :=
  String dquote (quote_chars s) ++ String dquote EmptyString.

Fixpoint join (sep : string) (parts : list string) : string :=
  match parts with
  | [] => ""
  | [p] => p
  | p :: rest => p ++ sep ++ join sep rest
  end.

Definition number_to_string (n : Z) : string :=
  NilZero.string_of_int (Z.to_int n).

(** [JSON.stringify(v)]; [None] is the result [undefined].  A property whose
    value is [undefined] is left out of an object, an [undefined] array item
    is written [null]. *)
Fixpoint JSON_stringify (v : value) : option string :=
  match v with
  | VUndefined => None
  | VNull => Some "null"
  | VBool true => Some "true"
  | VBool false => Some "false"
  | VNum n => Some (number_to_string n)
  | VStr s => Some (quote s)
  | VArr items =>
      Some ("[" ++
            join "," (map (fun x => match JSON_stringify x with
                                    | Some t => t
                                    | None => "null"
                                    end) items) ++ "]")
  | VObj props =>
      Some ("{" ++
            join "," (flat_map (fun kv => match JSON_stringify (snd kv) with
                                          | Some t => [quote (fst kv) ++ ":" ++ t]
                                          | None => []
                                          end) props) ++ "}")
  end.

(** ** The form data and its schema *)

(** [type FormData = z.infer<typeof formSchema>]: [website] may be absent. *)
Record FormData : Type := mkFormData {
  name : string;
  email : string;
  phone : string;
  website : option string
}.

(** The object that [JSON.stringify(data)] sees. *)
Definition FormData_value (d : FormData) : value :=
  VObj [("name", VStr (name d));
        ("email", VStr (email d));
        ("phone", VStr (phone d));
        ("website", match website d with Some w => VStr w | None => VUndefined end)].

(** The [message] of [errors.<field>], when the field has an error. *)
Record FieldErrors : Type := mkFieldErrors {
  err_name : option string;
  err_email : option string;
  err_phone : option string;
  err_website : option string
}.

Definition no_errors : FieldErrors := mkFieldErrors None None None None.

Definition has_errors (e : FieldErrors) : bool :=
  match err_name e, err_email e, err_phone e, err_website e with
  | None, None, None, None => false
  | _, _, _, _ => true
  end.

(** ** The state of the component and of its host *)

(** An argument of [toast(...)]. *)
Record Toast : Type := mkToast {
  title : string;
  description : string;
  variant : option string
}.

(** An argument pair of [fetch(url, init)]. *)
Record Request : Type := mkRequest {
  req_url : string;
  req_method : string;
  req_headers : list (string * string);
  req_body : option string
}.

(** What [response.json()] settles to. *)
Inductive body_outcome : Type :=
| BodyInvalid                 (* the promise rejects: the body is not JSON *)
| BodyJson (v : value).       (* the promise fulfils with the parsed value *)

Record Response : Type := mkResponse {
  status : N;
  json : body_outcome
}.

(** [response.ok]: the status is in the range 200-299. *)
Definition ok (r : Response) : bool :=
  ((200 <=? status r) && (status r <=? 299))%N.

(** What [fetch(...)] settles to. *)
Inductive fetch_outcome : Type :=
| NetworkFailure              (* the promise rejects *)
| Responded (r : Response).   (* the promise fulfils, whatever the status *)

(** Where a started call of [onSubmit] is suspended. *)
Inductive phase : Type :=
| AwaitingFetch                   (* at [await fetch(...)] *)
| AwaitingBody (r : Response).    (* at [await response.json()] *)

Record State : Type := mkState {
  isSubmitting : bool;            (* useState(false) *)
  isSubmitted : bool;             (* useState(false) *)
  fullReport : value;             (* useState<string | null>(null) *)
  values : FormData;              (* the registered inputs' contents *)
  errors : FieldErrors;           (* formState.errors *)
  toasts : list Toast;            (* the notifications shown so far *)
  requests : list Request;        (* the calls of fetch so far *)
  inflight : list phase;          (* the suspended calls of onSubmit *)
  now : N;                        (* the host's clock, in milliseconds *)
  timers : list N;                (* due times of the pending
                                     [() => setIsSubmitted(false)] *)
  clipboard : option string;      (* the text on the system clipboard *)
  downloads : list string         (* the file names offered for download *)
}.

(** Every registered input holds the empty string. *)
Definition empty_values : FormData := mkFormData "" "" "" (Some "").

(** The component as first rendered. *)
Definition init : State :=
  mkState false false VNull empty_values no_errors [] [] [] 0%N [] None [].

Definition with_isSubmitting (b : bool) (s : State) : State :=
  mkState b (isSubmitted s) (fullReport s) (values s) (errors s) (toasts s)
          (requests s) (inflight s) (now s) (timers s) (clipboard s) (downloads s).

Definition with_isSubmitted (b : bool) (s : State) : State :=
  mkState (isSubmitting s) b (fullReport s) (values s) (errors s) (toasts s)
          (requests s) (inflight s) (now s) (timers s) (clipboard s) (downloads s).

Definition with_fullReport (v : value) (s : State) : State :=
  mkState (isSubmitting s) (isSubmitted s) v (values s) (errors s) (toasts s)
          (requests s) (inflight s) (now s) (timers s) (clipboard s) (downloads s).

Definition with_values (d : FormData) (s : State) : State :=
  mkState (isSubmitting s) (isSubmitted s) (fullReport s) d (errors s) (toasts s)
          (requests s) (inflight s) (now s) (timers s) (clipboard s) (downloads s).

Definition with_errors (e : FieldErrors) (s : State) : State :=
  mkState (isSubmitting s) (isSubmitted s) (fullReport s) (values s) e (toasts s)
          (requests s) (inflight s) (now s) (timers s) (clipboard s) (downloads s).

Definition with_toasts (t : list Toast) (s : State) : State :=
  mkState (isSubmitting s) (isSubmitted s) (fullReport s) (values s) (errors s) t
          (requests s) (inflight s) (now s) (timers s) (clipboard s) (downloads s).

Definition with_requests (r : list Request) (s : State) : State :=
  mkState (isSubmitting s) (isSubmitted s) (fullReport s) (values s) (errors s)
          (toasts s) r (inflight s) (now s) (timers s) (clipboard s) (downloads s).

Definition with_inflight (p : list phase) (s : State) : State :=
  mkState (isSubmitting s) (isSubmitted s) (fullReport s) (values s) (errors s)
          (toasts s) (requests s) p (now s) (timers s) (clipboard s) (downloads s).

Definition with_now (t : N) (s : State) : State :=
  mkState (isSubmitting s) (isSubmitted s) (fullReport s) (values s) (errors s)
          (toasts s) (requests s) (inflight s) t (timers s) (clipboard s) (downloads s).

Definition with_timers (t : list N) (s : State) : State :=
  mkState (isSubmitting s) (isSubmitted s) (fullReport s) (values s) (errors s)
          (toasts s) (requests s) (inflight s) (now s) t (clipboard s) (downloads s).

Definition with_clipboard (c : option string) (s : State) : State :=
  mkState (isSubmitting s) (isSubmitted s) (fullReport s) (values s) (errors s)
          (toasts s) (requests s) (inflight s) (now s) (timers s) c (downloads s).

Definition with_downloads (d : list string) (s : State) : State :=
  mkState (isSubmitting s) (isSubmitted s) (fullReport s) (values s) (errors s)
          (toasts s) (requests s) (inflight s) (now s) (timers s) (clipboard s) d.

(** ** Handlers: state, and a result or an exception *)

Definition M (A : Type) : Type := State -> (exn + A) * State.

Definition ret {A} (a : A) : M A := fun s => (inr a, s).

Definition throw {A} (e : exn) : M A := fun s => (inl e, s).

Definition bind {A B} (c : M A) (k : A -> M B) : M B :=
  fun s =>
    match c s with
    | (inr a, s1) => k a s1
    | (inl e, s1) => (inl e, s1)
    end.

Declare Scope handler_scope.
Delimit Scope handler_scope with handler.
Notation "x <- c ;; k" := (bind c (fun x => k))
  (at level 61, c at next level, right associativity) : handler_scope.
Notation "c ;; k" := (bind c (fun _ => k))
  (at level 61, right associativity) : handler_scope.
Local Open Scope handler_scope.

(** [try { body } catch (e) { handler } finally { fin }]: [fin] runs on every
    way out, and an exception of [fin] replaces the pending outcome. *)
Definition try_catch_finally {A}
    (body : M A) (handler : exn -> M A) (fin : M unit) : M A :=
  fun s =>
    let '(r, s1) :=
      match body s with
      | (inr a, s1) => (inr a, s1)
      | (inl e, s1) => handler e s1
      end in
    match fin s1 with
    | (inr _, s2) => (r, s2)
    | (inl e, s2) => (inl e, s2)
    end.

Definition update (f : State -> State) : M unit := fun s => (inr tt, f s).

Definition lift {A} (r : exn + A) : M A := fun s => (r, s).

Definition setIsSubmitting (b : bool) : M unit := update (with_isSubmitting b).
Definition setIsSubmitted (b : bool) : M unit := update (with_isSubmitted b).
Definition setFullReport (v : value) : M unit := update (with_fullReport v).

(** Modelled from the spec: the hook [useToast] of [hooks/use-toast], known
    here by its import only.  A call of [toast] surfaces one transient
    notification; the notifications surfaced so far are kept in order. *)
Definition toast (t : Toast) : M unit :=
  update (fun s => with_toasts (toasts s ++ [t]) s).

(** [reset()] of the form library, called without values and for a form
    without default values: the inputs are emptied and the field errors
    dropped. *)
Definition reset : M unit :=
  update (fun s => with_errors no_errors (with_values empty_values s)).

(** [setTimeout(() => setIsSubmitted(false), delay)] *)
Definition setTimeout_clear_submitted (delay : N) : M unit :=
  update (fun s => with_timers (timers s ++ [(now s + delay)%N]) s).

(** ** What the view shows *)

Definition button_disabled (s : State) : bool := isSubmitting s.

Inductive button_content : Type := Sending | MessageSent | SendMessage.

(** [isSubmitting ? ... : isSubmitted ? ... : ...] *)
Definition button_label (s : State) : button_content :=
  if isSubmitting s then Sending
  else if isSubmitted s then MessageSent
  else SendMessage.

(** [{fullReport && (<div id="report-section"> ... </div>)}] *)
Definition report_section_rendered (s : State) : bool := truthy (fullReport s).

(** The ids of the elements in the document; an element is known by its id. *)
Definition document_ids (s : State) : list string :=
  ["home"; "contact-form"; "name"; "phone"; "email"; "website"] ++
  (if report_section_rendered s then ["report-section"] else []).

Definition getElementById (id : string) : M (option string) :=
  fun s => (inr (if existsb (String.eqb id) (document_ids s)
                 then Some id else None), s).

(** ** [onSubmit] *)

Definition endpoint : string := "https://seoreport-backend.onrender.com/api/submit/".

Definition success_toast : Toast :=
  mkToast "Success!" "Report generated successfully!" None.

Definition failure_toast : Toast :=
  mkToast "Error" "Failed to generate report. Please try again." (Some "destructive").

(** The call [fetch(url, init)] itself: the request leaves. *)
Definition fetch_call (url method : string) (headers : list (string * string))
    (body : option string) : M unit :=
  update (fun s => with_requests (requests s ++ [mkRequest url method headers body]) s).

(** What [await] makes of the promise that [fetch] returned. *)
Definition fetch_settle (o : fetch_outcome) : M Response :=
  match o with
  | NetworkFailure => throw (TypeError "Failed to fetch")
  | Responded r => ret r
  end.

Definition fetch (url method : string) (headers : list (string * string))
    (body : option string) (o : fetch_outcome) : M Response :=
  fetch_call url method headers body ;; fetch_settle o.

(** [await response.json()] *)
Definition response_json (r : Response) : M value :=
  match json r with
  | BodyInvalid => throw (SyntaxError "Unexpected token")
  | BodyJson v => ret v
  end.

(** The handler in one piece; [o] is what the host answers to the request. *)
Definition onSubmit (data : FormData) (o : fetch_outcome) : M unit :=
  setIsSubmitting true ;;
  setFullReport VNull ;;
  try_catch_finally
    (response <- fetch endpoint "POST" [("Content-Type", "application/json")]
                       (JSON_stringify (FormData_value data)) o ;;
     (if negb (ok response) then throw (Error "Something went wrong!") else ret tt) ;;
     result <- response_json response ;;
     report <- lift (get_prop result "full_report") ;;
     setFullReport report ;;
     toast success_toast ;;
     setIsSubmitted true ;;
     reset ;;
     setTimeout_clear_submitted 3000)
    (fun _ => toast failure_toast)
    (setIsSubmitting false).

(** The same handler cut at its two [await]s. *)

(** From the call to the first suspension: the request has left. *)
Definition onSubmit_begin (data : FormData) : M unit :=
  setIsSubmitting true ;;
  setFullReport VNull ;;
  fetch_call endpoint "POST" [("Content-Type", "application/json")]
             (JSON_stringify (FormData_value data)).

(** From the answer of [fetch] to the second suspension, or to the end. *)
Definition onSubmit_after_fetch (o : fetch_outcome) : M (option phase) :=
  fun s =>
    match (response <- fetch_settle o ;;
           (if negb (ok response) then throw (Error "Something went wrong!")
            else ret tt) ;;
           ret response) s with
    | (inr response, s1) => (inr (Some (AwaitingBody response)), s1)
    | (inl e, s1) =>
        (try_catch_finally (throw e) (fun _ => toast failure_toast)
                           (setIsSubmitting false) ;;
         ret None) s1
    end.

(** From the answer of [response.json()] to the end. *)
Definition onSubmit_after_body (response : Response) : M unit :=
  try_catch_finally
    (result <- response_json response ;;
     report <- lift (get_prop result "full_report") ;;
     setFullReport report ;;
     toast success_toast ;;
     setIsSubmitted true ;;
     reset ;;
     setTimeout_clear_submitted 3000)
    (fun _ => toast failure_toast)
    (setIsSubmitting false).

(** ** The export operations *)

(** [String(v)], as [writeText] converts its argument. *)
Fixpoint to_string (v : value) : string :=
  match v with
  | VUndefined => "undefined"
  | VNull => "null"
  | VBool true => "true"
  | VBool false => "false"
  | VNum n => number_to_string n
  | VStr s => s
  | VArr items =>
      join "," (map (fun x => match x with
                              | VUndefined | VNull => ""
                              | _ => to_string x
                              end) items)
  | VObj _ => "[object Object]"
  end.

(** How the host treats a clipboard write. *)
Inductive clipboard_host : Type :=
| ClipboardGranted      (* the promise of writeText fulfils *)
| ClipboardDenied       (* the promise of writeText rejects *)
| ClipboardMissing.     (* navigator.clipboard is undefined *)

Definition copied_toast : Toast :=
  mkToast "Copied!" "Report copied to clipboard." None.

(** [navigator.clipboard.writeText(text)]; the promise is dropped. *)
Definition writeText (text : string) (h : clipboard_host) : M unit :=
  match h with
  | ClipboardGranted => update (with_clipboard (Some text))
  | ClipboardDenied => ret tt
  | ClipboardMissing =>
      throw (TypeError "Cannot read properties of undefined (reading 'writeText')")
  end.

(** The [onClick] of the copy button. *)
Definition copy_onClick (h : clipboard_host) : M unit :=
  report <- (fun s => (inr (fullReport s), s)) ;;
  writeText (to_string (js_or report (VStr ""))) h ;;
  toast copied_toast.

(** What [html2canvas(element)] settles to. *)
Inductive capture_outcome : Type := CaptureRejects | CaptureResolves.

Definition html2canvas (element : string) (c : capture_outcome) : M unit :=
  match c with
  | CaptureRejects => throw (Error "Unable to render the element")
  | CaptureResolves => ret tt
  end.

(** [pdf.save(filename)] *)
Definition pdf_save (filename : string) : M unit :=
  update (fun s => with_downloads (downloads s ++ [filename]) s).

(** The page geometry between the capture and [pdf.save] is floating-point
    arithmetic on the image's size and has no effect on the state. *)
Definition handleDownloadPDF (c : capture_outcome) : M unit :=
  element <- getElementById "report-section" ;;
  match element with
  | None => ret tt
  | Some el =>
      html2canvas el c ;;
      pdf_save "seo-report.pdf"
  end.

(** ** Reading back the JSON text of a string *)

Definition hex_value (c : ascii) : option N :=
  let n := N_of_ascii c in
  if ((48 <=? n) && (n <=? 57))%N then Some (n - 48)%N
  else if ((97 <=? n) && (n <=? 102))%N then Some (n - 87)%N
  else None.

(** The first code unit that a JSON string literal's content denotes, and
    the text after it; [None] at the closing quote and on text that
    [quote_char] never writes. *)
Definition unquote_char (s : string) : option (ascii * string) :=
  match s with
  | EmptyString => None
  | String c rest =>
      if (N_of_ascii c =? 34)%N then None
      else if (N_of_ascii c =? 92)%N then
        match rest with
        | EmptyString => None
        | String e rest1 =>
            let k := N_of_ascii e in
            if (k =? 34)%N then Some (dquote, rest1)
            else if (k =? 92)%N then Some (backslash, rest1)
            else if (k =? 98)%N then Some (ascii_of_N 8, rest1)
            else if (k =? 102)%N then Some (ascii_of_N 12, rest1)
            else if (k =? 110)%N then Some (ascii_of_N 10, rest1)
            else if (k =? 114)%N then Some (ascii_of_N 13, rest1)
            else if (k =? 116)%N then Some (ascii_of_N 9, rest1)
            else if (k =? 117)%N then
              match rest1 with
              | String h1 (String h2 (String h3 (String h4 rest2))) =>
                  match hex_value h1, hex_value h2, hex_value h3, hex_value h4 with
                  | Some 0%N, Some 0%N, Some a, Some b =>
                      Some (ascii_of_N (16 * a + b), rest2)
                  | _, _, _, _ => None
                  end
              | _ => None
              end
            else None
        end
      else Some (c, rest)
  end.

(** A reader of JSON text, written from the JSON grammar and not from
    [JSON_stringify]: string literals, and objects whose members are strings.
    [fuel] bounds the number of steps. *)







(** To write JSON text down: every apostrophe of [s] stands for a double
    quote. *)
Fixpoint dq (s : string) : string :=
  match s with
  | EmptyString => EmptyString
  | String c rest => String (if (N_of_ascii c =? 39)%N then dquote else c) (dq rest)
  end.

(** ** The header and the hero section *)

(** A scroll of the page to the element with the id [target]: a call of
    [scrollIntoView], or the host following a link to a fragment. *)
Record Scroll : Type := mkScroll {
  target : string;
  behavior : string
}.

(** [document.getElementById(id)?.scrollIntoView({ behavior: 'smooth' })] in
    a document whose elements have the ids [doc]: nothing happens when no
    element has the id. *)
Definition scroll_to (doc : list string) (id : string) (log : list Scroll) : list Scroll :=
  if existsb (String.eqb id) doc then log ++ [mkScroll id "smooth"] else log.

Module Header.

Record State : Type := mkState {
  isMenuOpen : bool;              (* useState(false) *)
  scrolls : list Scroll           (* the scrolls requested so far *)
}.

Definition init : State := mkState false [].

Definition setIsMenuOpen (b : bool) (h : State) : State := mkState b (scrolls h).

Definition scrollToForm (doc : list string) (h : State) : State :=
  setIsMenuOpen false (mkState (isMenuOpen h) (scroll_to doc "contact-form" (scrolls h))).

Definition toggleMenu (h : State) : State :=
  setIsMenuOpen (negb (isMenuOpen h)) h.

(** The handlers of the header, by the element whose click runs them.  The
    mobile navigation, with its links and its own contact button, is rendered
    only while the menu is open; the desktop contact button and the menu
    button always are.  What the host does with a click besides running the
    handler, following a link, is part of [Page.step]. *)
Inductive event : Type :=
| MenuButton                    (* onClick={toggleMenu} *)
| DesktopContact                (* onClick={scrollToForm} *)
| MobileLink                    (* onClick={() => setIsMenuOpen(false)} *)
| MobileContact.                (* onClick={scrollToForm} *)

Definition step (doc : list string) (e : event) (h : State) : State :=
  match e with
  | MenuButton => toggleMenu h
  | DesktopContact => scrollToForm doc h
  | MobileLink => if isMenuOpen h then setIsMenuOpen false h else h
  | MobileContact => if isMenuOpen h then scrollToForm doc h else h
  end.

Definition run (doc : list string) (evs : list event) (h : State) : State :=
  fold_left (fun h1 e => step doc e h1) evs h.

End Header.

Module HeroSection.

(** The component has no state; its handler only asks for a scroll. *)
Definition scrollToForm (doc : list string) (log : list Scroll) : list Scroll :=
  scroll_to doc "contact-form" log.

End HeroSection.

(** The clicks on the header and the hero section as the page sees them: the
    handler of the element, if it has one, and then the host's default
    action, which for a link is to go to its fragment. *)
Module Page.

(** The links of both navigations: [href="#home"], [#services], [#about]
    and [#portfolio]. *)
Inductive nav_link : Type := Home | Services | About | Portfolio.

Definition fragment (l : nav_link) : string :=
  match l with
  | Home => "home"
  | Services => "services"
  | About => "about"
  | Portfolio => "portfolio"
  end.

(** The host follows a link to [#id]: it scrolls to the element with that
    id, if the document has one, and not at all otherwise. *)
Definition follow_fragment (doc : list string) (id : string) (log : list Scroll)
    : list Scroll :=
  if existsb (String.eqb id) doc then log ++ [mkScroll id "auto"] else log.

Inductive click : Type :=
| MenuButton
| DesktopContact
| DesktopLink (l : nav_link)      (* no handler *)
| MobileLink (l : nav_link)
| MobileContact
| HeroGetStarted                  (* onClick={scrollToForm} *)
| HeroViewWork.                   (* no handler *)

Definition step (doc : list string) (c : click) (h : Header.State) : Header.State :=
  match c with
  | MenuButton => Header.step doc Header.MenuButton h
  | DesktopContact => Header.step doc Header.DesktopContact h
  | DesktopLink l =>
      Header.mkState (Header.isMenuOpen h)
                     (follow_fragment doc (fragment l) (Header.scrolls h))
  | MobileLink l =>
      if Header.isMenuOpen h then
        let h1 := Header.step doc Header.MobileLink h in
        Header.mkState (Header.isMenuOpen h1)
                       (follow_fragment doc (fragment l) (Header.scrolls h1))
      else h
  | MobileContact => Header.step doc Header.MobileContact h
  | HeroGetStarted =>
      Header.mkState (Header.isMenuOpen h)
                     (HeroSection.scrollToForm doc (Header.scrolls h))
  | HeroViewWork => h
  end.

Definition run (doc : list string) (cs : list click) (h : Header.State) : Header.State :=
  fold_left (fun h1 c => step doc c h1) cs h.

End Page.

(** Two simple format checks, to run the form on concrete inputs: an address
    has an at sign, a URL starts with a web scheme. *)
Definition sample_is_email (s : string) : bool :=
  existsb (Ascii.eqb "@") (list_ascii_of_string s).

Definition sample_is_url (s : string) : bool :=
  prefix "http://" s || prefix "https://" s.

(** A simple check in place of the host's for the value of an input of type
    email: an at sign with text on both sides. *)
Definition sample_host_email (s : string) : bool :=
  match index 0 "@" s with
  | Some (S i) => (S (S i) <? String.length s)%nat
  | _ => false
  end.

(** Sample inputs and answers. *)
Definition sample_data : FormData :=
  mkFormData "Ada" "ada@example.org" "0123456789" (Some "").



Definition report_response (report : string) : Response :=
  mkResponse 200 (BodyJson (VObj [("full_report", VStr report)])).

Definition empty_object_response : Response :=
  mkResponse 200 (BodyJson (VObj [])).

Definition server_error_response : Response :=
  mkResponse 500 BodyInvalid.

(** ** The form: schema, submission and the events of the page *)

Section Form.

(** The two format checks of the schema library are taken as given:
    [is_email s] says that [s] passes [z.string().email()], [is_url s] that
    it passes [z.string().url()]. *)
Variable is_email : string -> bool.
Variable is_url : string -> bool.

(** The email input has [type="email"] and the form does not say
    [noValidate]: before a submit event is fired the host checks the input's
    value itself.  [host_email s] says that the host takes [s] for a valid
    e-mail address; the other inputs are plain text inputs without
    constraints. *)
Variable host_email : string -> bool.

(** [z.string().min(2, ...)] *)
Definition check_name (s : string) : option string :=
  if (String.length s <? 2)%nat then Some "Name must be at least 2 characters"
  else None.

(** [z.string().email(...)] *)
Definition check_email (s : string) : option string :=
  if is_email s then None else Some "Please enter a valid email address".

(** [z.string().min(10, ...)] *)
Definition check_phone (s : string) : option string :=
  if (String.length s <? 10)%nat then Some "Please enter a valid phone number"
  else None.

(** [z.string().url(...).optional().or(z.literal(''))]: an absent value
    passes, then a URL, then the empty string; the message is that of the
    union's first member. *)
Definition check_website (w : option string) : option string :=
  match w with
  | None => None
  | Some s =>
      if is_url s then None
      else if s =? "" then None
      else Some "Please enter a valid website URL"
  end.

(** [formSchema] applied to the form's values: every field is checked. *)
Definition formSchema (d : FormData) : FieldErrors :=
  mkFieldErrors (check_name (name d)) (check_email (email d))
                (check_phone (phone d)) (check_website (website d)).

(** [zodResolver(formSchema)]: the errors, or the accepted data. *)
Definition resolver (d : FormData) : FieldErrors + FormData :=
  let e := formSchema d in
  if has_errors e then inl e else inr d.

Definition valid (d : FormData) : bool :=
  match resolver d with inl _ => false | inr _ => true end.

(** [handleSubmit(onValid)] of the form library: the values are resolved;
    with errors these are published and [onValid] is not called, without
    errors [onValid] receives the data. *)
Definition handleSubmit (onValid : FormData -> M unit) : M unit :=
  fun s =>
    match resolver (values s) with
    | inl e => update (with_errors e) s
    | inr data => (update (with_errors no_errors) ;; onValid data) s
    end.

(** *** Events *)

Inductive event : Type :=
| Edit (d : FormData)                        (* the user edits the inputs *)
| SubmitTrigger                              (* the form is submitted *)
| FetchSettled (i : nat) (o : fetch_outcome) (* a promise of fetch settles *)
| BodySettled (i : nat)                      (* a promise of json() settles *)
| Advance (dt : N)                           (* time passes *)
| CopyClick (h : clipboard_host)             (* the copy button is clicked *)
| PdfClick (c : capture_outcome).            (* the PDF button is clicked *)

Definition exec {A} (c : M A) (s : State) : State := snd (c s).

Fixpoint remove_nth {A} (i : nat) (l : list A) : list A :=
  match l, i with
  | [], _ => []
  | _ :: rest, O => rest
  | x :: rest, S j => x :: remove_nth j rest
  end.

Fixpoint replace_nth {A} (i : nat) (y : A) (l : list A) : list A :=
  match l, i with
  | [], _ => []
  | _ :: rest, O => y :: rest
  | x :: rest, S j => x :: replace_nth j y rest
  end.

(** The host's validation of the form's inputs: the email input is not
    required, so its value must be empty or pass the host's check. *)
Definition checkValidity (s : State) : bool :=
  (email (values s) =? "") || host_email (email (values s)).

(** A trigger, by the button or the Enter key, becomes a submit event on the
    form only while the submit button is not disabled and only when the
    host's validation passes; otherwise the host keeps it, shows its own hint
    and the component sees nothing. *)
Definition submit (s : State) : State :=
  if button_disabled s then s
  else if negb (checkValidity s) then s
  else
    exec (handleSubmit (fun data =>
            onSubmit_begin data ;;
            update (fun s1 => with_inflight (inflight s1 ++ [AwaitingFetch]) s1))) s.

Definition fetch_settled (i : nat) (o : fetch_outcome) (s : State) : State :=
  match nth_error (inflight s) i with
  | Some AwaitingFetch =>
      match onSubmit_after_fetch o s with
      | (inr (Some p), s1) => with_inflight (replace_nth i p (inflight s1)) s1
      | (_, s1) => with_inflight (remove_nth i (inflight s1)) s1
      end
  | _ => s
  end.

Definition body_settled (i : nat) (s : State) : State :=
  match nth_error (inflight s) i with
  | Some (AwaitingBody r) =>
      let s1 := exec (onSubmit_after_body r) s in
      with_inflight (remove_nth i (inflight s1)) s1
  | _ => s
  end.

(** The clock moves on by [dt]; the timers due by then fire, oldest first. *)
Definition advance (dt : N) (s : State) : State :=
  let t := (now s + dt)%N in
  let fired := filter (fun d => (d <=? t)%N) (timers s) in
  let kept := filter (fun d => negb (d <=? t)%N) (timers s) in
  fold_left (fun s1 _ => exec (setIsSubmitted false) s1) fired
            (with_timers kept (with_now t s)).

(** The export buttons are part of the report section. *)
Definition copy_click (h : clipboard_host) (s : State) : State :=
  if report_section_rendered s then exec (copy_onClick h) s else s.

Definition pdf_click (c : capture_outcome) (s : State) : State :=
  if report_section_rendered s then exec (handleDownloadPDF c) s else s.

Definition step (e : event) (s : State) : State :=
  match e with
  | Edit d => with_values d s
  | SubmitTrigger => submit s
  | FetchSettled i o => fetch_settled i o s
  | BodySettled i => body_settled i s
  | Advance dt => advance dt s
  | CopyClick h => copy_click h s
  | PdfClick c => pdf_click c s
  end.

Definition run (evs : list event) (s : State) : State :=
  fold_left (fun s1 e => step e s1) evs s.

(** [onSubmit] put together again from its three pieces. *)
Definition onSubmit_by_phases (data : FormData) (o : fetch_outcome) : M unit :=
  onSubmit_begin data ;;
  p <- onSubmit_after_fetch o ;;
  match p with
  | Some (AwaitingBody r) => onSubmit_after_body r
  | _ => ret tt
  end.

(** At most one call of [onSubmit] is suspended, the submit button is disabled
    exactly while one is, and the report stays cleared meanwhile. *)
Definition single_flight (s : State) : Prop :=
  (inflight s = [] /\ isSubmitting s = false) \/
  (exists p, inflight s = [p] /\ isSubmitting s = true /\ fullReport s = VNull).

(** The request that [onSubmit] sends for [data]. *)
Definition request_of (data : FormData) : Request :=
  mkRequest endpoint "POST" [("Content-Type", "application/json")]
            (JSON_stringify (FormData_value data)).

(** The text of one member of a JSON object whose value is a string. *)
Definition member (key val : string) : string := quote key ++ ":" ++ quote val.

(** What a run of [onSubmit] that ends in the [catch] block leaves. *)
Definition failed (data : FormData) (s : State) : State :=
  with_isSubmitting false
    (with_toasts (toasts s ++ [failure_toast])
       (with_requests (requests s ++ [request_of data])
          (with_fullReport VNull (with_isSubmitting true s)))).

(** What a run of [onSubmit] that reaches the end of the [try] block leaves. *)
Definition succeeded (data : FormData) (report : value) (s : State) : State :=
  with_isSubmitting false
    (with_timers (timers s ++ [(now s + 3000)%N])
       (with_errors no_errors
          (with_values empty_values
             (with_isSubmitted true
                (with_toasts (toasts s ++ [success_toast])
                   (with_fullReport report
                      (with_requests (requests s ++ [request_of data])
                         (with_fullReport VNull (with_isSubmitting true s))))))))).

(** Every pending timer is due after now and within 3000 ms, and the Success
    flag is set only while a timer is pending. *)
Definition timers_pending (s : State) : Prop :=
  Forall (fun d => (now s < d <= now s + 3000)%N) (timers s) /\
  (isSubmitted s = true -> timers s <> []).

(** A request that [onSubmit] sends for data that the schema accepts. *)
Definition sent_for_valid_data (r : Request) : Prop :=
  exists d, valid d = true /\ r = request_of d.

(** ** The handler and its pieces *)

(** Cutting [onSubmit] at its suspension points does not change it. *)
Lemma onSubmit_by_phases_eq (data : FormData) (o : fetch_outcome) (s : State) :
  onSubmit_by_phases data o s = onSubmit data o s.
Proof.
  unfold onSubmit_by_phases, onSubmit, onSubmit_begin, onSubmit_after_fetch,
    onSubmit_after_body, fetch, try_catch_finally, bind.
  cbn [setIsSubmitting setFullReport update fetch_call].
  destruct o as [|r]; cbn [fetch_settle throw ret]; [reflexivity|].
  destruct (ok r); cbn [negb throw ret]; [|reflexivity].
  unfold response_json. destruct (json r) as [|v]; cbn [throw ret]; [reflexivity|].
  unfold lift. destruct (get_prop v "full_report"); reflexivity.
Qed.

Lemma onSubmit_network_failure (data : FormData) (s : State) :
  onSubmit data NetworkFailure s = (inr tt, failed data s).
Proof. reflexivity. Qed.

Lemma onSubmit_not_ok (data : FormData) (r : Response) (s : State) :
  ok r = false ->
  onSubmit data (Responded r) s = (inr tt, failed data s).
Proof.
  intros Hok. unfold onSubmit, fetch, try_catch_finally, bind.
  cbn [setIsSubmitting setFullReport update fetch_call fetch_settle ret].
  rewrite Hok. reflexivity.
Qed.

Lemma onSubmit_body_invalid (data : FormData) (r : Response) (s : State) :
  ok r = true -> json r = BodyInvalid ->
  onSubmit data (Responded r) s = (inr tt, failed data s).
Proof.
  intros Hok Hj. unfold onSubmit, fetch, try_catch_finally, bind.
  cbn [setIsSubmitting setFullReport update fetch_call fetch_settle ret].
  rewrite Hok. cbn [negb ret]. unfold response_json. rewrite Hj. reflexivity.
Qed.

Lemma onSubmit_body_json (data : FormData) (r : Response) (v : value) (s : State) :
  ok r = true -> json r = BodyJson v ->
  onSubmit data (Responded r) s =
    match get_prop v "full_report" with
    | inl _ => (inr tt, failed data s)
    | inr report => (inr tt, succeeded data report s)
    end.
Proof.
  intros Hok Hj. destruct s.
  unfold onSubmit, fetch, try_catch_finally, bind, succeeded, failed.
  cbn [setIsSubmitting setFullReport update fetch_call fetch_settle ret].
  rewrite Hok. cbn [negb ret]. unfold response_json. rewrite Hj.
  cbn [ret]. unfold lift.
  destruct (get_prop v "full_report"); reflexivity.
Qed.

Lemma ok_iff (r : Response) : ok r = true <-> (200 <= status r <= 299)%N.
Proof.
  unfold ok. rewrite andb_true_iff, !N.leb_le. tauto.
Qed.

Lemma not_ok (r : Response) : ~ (200 <= status r <= 299)%N -> ok r = false.
Proof.
  intros H. destruct (ok r) eqn:E; [|reflexivity].
  apply ok_iff in E. contradiction.
Qed.

(** *** Timers *)

Lemma with_isSubmitted_twice (b : bool) (s : State) :
  with_isSubmitted b (with_isSubmitted b s) = with_isSubmitted b s.
Proof. destruct s; reflexivity. Qed.

Lemma fire_all (fired : list N) (s : State) :
  fold_left (fun s1 (_ : N) => exec (setIsSubmitted false) s1) fired s =
    match fired with
    | [] => s
    | _ :: _ => with_isSubmitted false s
    end.
Proof.
  revert s. induction fired as [|d rest IH]; intros s; [reflexivity|].
  cbn [fold_left]. rewrite IH.
  destruct rest; [reflexivity|].
  unfold exec, setIsSubmitted, update. cbn [snd].
  apply with_isSubmitted_twice.
Qed.

Lemma button_label_advance (dt : N) (s : State) :
  button_label (advance dt s) =
    if isSubmitting s then Sending
    else if existsb (fun d => (d <=? now s + dt)%N) (timers s) then SendMessage
    else if isSubmitted s then MessageSent else SendMessage.
Proof.
  unfold advance. rewrite fire_all.
  destruct (filter (fun d => (d <=? now s + dt)%N) (timers s)) as [|d rest] eqn:E.
  - assert (Hex : existsb (fun d => (d <=? now s + dt)%N) (timers s) = false).
    { destruct (existsb _ (timers s)) eqn:Hx; [|reflexivity].
      apply existsb_exists in Hx. destruct Hx as [x [Hin Hx]].
      assert (Hf : In x (filter (fun d => (d <=? now s + dt)%N) (timers s)))
        by (apply filter_In; split; assumption).
      rewrite E in Hf. destruct Hf. }
    rewrite Hex. destruct s; reflexivity.
  - assert (Hex : existsb (fun d => (d <=? now s + dt)%N) (timers s) = true).
    { apply existsb_exists. exists d.
      assert (Hf : In d (filter (fun d => (d <=? now s + dt)%N) (timers s)))
        by (rewrite E; left; reflexivity).
      apply filter_In in Hf. exact Hf. }
    rewrite Hex. destruct s as [sub ? ? ? ? ? ? ? ? ? ? ?]. destruct sub; reflexivity.
Qed.

(** ** The outcomes of a submission *)

(** C9.  Every run of the submit handler that completes, whatever the host
    answered (a network failure, a response of any status, a body of any
    kind), returns normally, so that no exception reaches the caller, and
    leaves the Submitting flag false, so that the submit button is enabled
    again.  The same holds of the pieces in which the handler runs between
    its suspension points: a piece either suspends again or ends that way. *)
Theorem onSubmit_always_completes_and_reenables
    (data : FormData) (o : fetch_outcome) (s : State) :
  fst (onSubmit data o s) = inr tt /\
  isSubmitting (exec (onSubmit data o) s) = false /\
  button_disabled (exec (onSubmit data o) s) = false /\
  (exists p, fst (onSubmit_after_fetch o s) = inr p /\
             (p = None -> isSubmitting (exec (onSubmit_after_fetch o) s) = false)) /\
  (forall r, fst (onSubmit_after_body r s) = inr tt /\
             isSubmitting (exec (onSubmit_after_body r) s) = false).
Proof.
  assert (Hrun : fst (onSubmit data o s) = inr tt /\
                 isSubmitting (exec (onSubmit data o) s) = false).
  { unfold exec. destruct o as [|r].
    - rewrite onSubmit_network_failure. split; reflexivity.
    - destruct (ok r) eqn:Hok.
      + destruct (json r) as [|v] eqn:Hj.
        * rewrite (onSubmit_body_invalid data r s Hok Hj). split; reflexivity.
        * rewrite (onSubmit_body_json data r v s Hok Hj).
          destruct (get_prop v "full_report"); split; reflexivity.
      + rewrite (onSubmit_not_ok data r s Hok). split; reflexivity. }
  destruct Hrun as [H1 H2].
  split; [exact H1|]. split; [exact H2|]. split; [exact H2|]. split.
  - unfold exec, onSubmit_after_fetch, bind. destruct o as [|r]; cbn [fetch_settle throw ret].
    + exists None. split; reflexivity.
    + destruct (ok r); cbn [negb throw ret].
      * exists (Some (AwaitingBody r)). split; [reflexivity|]. intros H; discriminate H.
      * exists None. split; reflexivity.
  - intros r. unfold exec, onSubmit_after_body, try_catch_finally, bind, response_json.
    destruct (json r) as [|v]; cbn [throw ret]; [split; reflexivity|].
    unfold lift. destruct (get_prop v "full_report"); split; reflexivity.
Qed.

(** C3.  A submission answered with a status in 200-299 and a JSON body that
    is an object with a string under [full_report] returns normally, stores
    that string as the report, shows the Success label, adds the confirmation
    notification, empties the inputs and registers the timer that clears the
    Success flag 3000 ms later: once that time has passed the button shows its
    idle label again, and, when no older timer is pending, not before. *)
Theorem success_stores_report_and_reverts
    (data : FormData) (r : Response) (props : list (string * value))
    (report : string) (s : State) :
  (200 <= status r <= 299)%N ->
  json r = BodyJson (VObj props) ->
  lookup "full_report" props = Some (VStr report) ->
  let s' := exec (onSubmit data (Responded r)) s in
  fst (onSubmit data (Responded r) s) = inr tt /\
  fullReport s' = VStr report /\
  isSubmitted s' = true /\
  button_label s' = MessageSent /\
  toasts s' = (toasts s ++ [success_toast])%list /\
  values s' = empty_values /\
  timers s' = (timers s ++ [(now s + 3000)%N])%list /\
  button_label (advance 3000 s') = SendMessage /\
  button_disabled (advance 3000 s') = false /\
  (timers s = [] ->
   forall dt, (dt < 3000)%N -> button_label (advance dt s') = MessageSent).
Proof.
  intros Hst Hj Hl s'. apply ok_iff in Hst.
  assert (Hrun : onSubmit data (Responded r) s =
                 (inr tt, succeeded data (VStr report) s)).
  { rewrite (onSubmit_body_json data r _ s Hst Hj). cbn [get_prop]. rewrite Hl. reflexivity. }
  assert (Hs' : s' = succeeded data (VStr report) s).
  { unfold s', exec. rewrite Hrun. reflexivity. }
  rewrite Hrun, Hs'. clear s' Hs' Hrun.
  split; [reflexivity|]. split; [reflexivity|]. split; [reflexivity|].
  split; [reflexivity|]. split; [reflexivity|]. split; [reflexivity|].
  split; [reflexivity|].
  assert (Hdue : existsb (fun d => (d <=? now s + 3000)%N)
                         (timers s ++ [(now s + 3000)%N])%list = true).
  { rewrite existsb_app. cbn [existsb]. rewrite N.leb_refl.
    rewrite orb_true_l, orb_true_r. reflexivity. }
  split; [|split].
  - rewrite button_label_advance. cbn [succeeded with_isSubmitting isSubmitting].
    replace (timers (succeeded data (VStr report) s))
      with (timers s ++ [(now s + 3000)%N])%list by reflexivity.
    replace (now (succeeded data (VStr report) s)) with (now s) by reflexivity.
    rewrite Hdue. reflexivity.
  - unfold advance. rewrite fire_all.
    destruct (filter _ (timers (succeeded data (VStr report) s))); reflexivity.
  - intros Ht dt Hdt. rewrite button_label_advance.
    cbn [succeeded with_isSubmitting isSubmitting].
    replace (timers (succeeded data (VStr report) s))
      with (timers s ++ [(now s + 3000)%N])%list by reflexivity.
    replace (now (succeeded data (VStr report) s)) with (now s) by reflexivity.
    rewrite Ht. cbn [app existsb].
    assert (Hlt : (now s + 3000 <=? now s + dt)%N = false) by (apply N.leb_gt; lia).
    rewrite Hlt. reflexivity.
Qed.

(** C4, as amended.  A submission that fails with a network failure or with a
    response whose status is outside 200-299 returns normally and leaves the
    report cleared, as the handler cleared it when it started, so that an
    earlier report is not kept; the failure path itself stores no report.  The
    failure notification is added, the inputs and the Success flag are as they
    were, and the Submitting flag is false: the button is enabled again, with
    its idle label unless the Success flag of an earlier submission is still
    set. *)
Theorem failure_clears_report_keeps_inputs
    (data : FormData) (o : fetch_outcome) (s : State) :
  (o = NetworkFailure \/
   exists r, o = Responded r /\ ~ (200 <= status r <= 299)%N) ->
  let s' := exec (onSubmit data o) s in
  fst (onSubmit data o s) = inr tt /\
  fullReport s' = VNull /\
  toasts s' = (toasts s ++ [failure_toast])%list /\
  values s' = values s /\
  errors s' = errors s /\
  isSubmitted s' = isSubmitted s /\
  timers s' = timers s /\
  isSubmitting s' = false /\
  button_disabled s' = false /\
  (isSubmitted s = false -> button_label s' = SendMessage).
Proof.
  intros Ho s'.
  assert (Hrun : onSubmit data o s = (inr tt, failed data s)).
  { destruct Ho as [-> | [r [-> Hst]]].
    - apply onSubmit_network_failure.
    - apply onSubmit_not_ok, not_ok, Hst. }
  assert (Hs' : s' = failed data s) by (unfold s', exec; rewrite Hrun; reflexivity).
  rewrite Hrun, Hs'. clear s' Hs' Hrun Ho.
  repeat (split; [reflexivity|]).
  intros Hsub. destruct s as [a b c d e f g h i j k l].
  cbn [isSubmitted] in Hsub. subst b. reflexivity.
Qed.

(** C5, as amended.  For a response with a status in 200-299: when the body
    cannot be parsed as JSON, or parses to [null], the run ends exactly as
    after a network failure, with the failure notification and nothing of the
    success path.  When the body parses to any other JSON value the success
    path is taken whatever the value holds: the confirmation notification is
    added, the Success flag set and the inputs emptied, and the report becomes
    the value found under [full_report], which is [undefined] when an object
    has no such field, so that no report section is rendered. *)
Theorem malformed_body_outcomes
    (data : FormData) (r : Response) (s : State) :
  (200 <= status r <= 299)%N ->
  let s' := exec (onSubmit data (Responded r)) s in
  ((json r = BodyInvalid \/ json r = BodyJson VNull) ->
   s' = exec (onSubmit data NetworkFailure) s /\
   toasts s' = (toasts s ++ [failure_toast])%list /\
   isSubmitted s' = isSubmitted s /\
   values s' = values s /\
   fullReport s' = VNull) /\
  (forall v, json r = BodyJson v -> v <> VNull -> v <> VUndefined ->
   exists report,
     get_prop v "full_report" = inr report /\
     fullReport s' = report /\
     toasts s' = (toasts s ++ [success_toast])%list /\
     isSubmitted s' = true /\
     values s' = empty_values) /\
  (forall props, json r = BodyJson (VObj props) ->
   lookup "full_report" props = None ->
   fullReport s' = VUndefined /\ report_section_rendered s' = false).
Proof.
  intros Hst s'. apply ok_iff in Hst. split; [|split].
  - intros Hbody.
    assert (Hrun : onSubmit data (Responded r) s = (inr tt, failed data s)).
    { destruct Hbody as [Hj | Hj].
      - apply onSubmit_body_invalid; assumption.
      - rewrite (onSubmit_body_json data r _ s Hst Hj). reflexivity. }
    assert (Hs' : s' = failed data s) by (unfold s', exec; rewrite Hrun; reflexivity).
    rewrite Hs'. unfold exec. rewrite onSubmit_network_failure.
    repeat split.
  - intros v Hj Hnull Hundef.
    assert (Hget : exists report, get_prop v "full_report" = inr report).
    { destruct v; try (eexists; reflexivity); congruence. }
    destruct Hget as [report Hget]. exists report.
    assert (Hs' : s' = succeeded data report s).
    { unfold s', exec. rewrite (onSubmit_body_json data r v s Hst Hj), Hget. reflexivity. }
    rewrite Hs'. repeat split. exact Hget.
  - intros props Hj Hl.
    assert (Hs' : s' = succeeded data VUndefined s).
    { unfold s', exec. rewrite (onSubmit_body_json data r _ s Hst Hj).
      cbn [get_prop]. rewrite Hl. reflexivity. }
    rewrite Hs'. split; reflexivity.
Qed.

(** ** The export operations *)

(** C6.  When a report is stored, the copy handler passes exactly the stored
    string to the clipboard: its run is the write of that string followed by
    the notification, and when the host grants the write the clipboard holds
    the string unchanged; the same through a click on the rendered button. *)
Theorem copy_writes_report_verbatim
    (report : string) (h : clipboard_host) (s : State) :
  fullReport s = VStr report ->
  copy_onClick h s = (writeText report h ;; toast copied_toast) s /\
  clipboard (exec (copy_onClick ClipboardGranted) s) = Some report /\
  (report_section_rendered s = true ->
   clipboard (copy_click ClipboardGranted s) = Some report).
Proof.
  intros Hr.
  assert (Hrun : forall h', copy_onClick h' s =
                            (writeText report h' ;; toast copied_toast) s).
  { intros h'. unfold copy_onClick, bind at 1. rewrite Hr.
    unfold js_or. cbn [truthy].
    destruct (String.eqb_spec report "") as [-> | Hne]; reflexivity. }
  split; [apply Hrun|].
  assert (Hc : clipboard (exec (copy_onClick ClipboardGranted) s) = Some report).
  { unfold exec. rewrite Hrun. destruct s; reflexivity. }
  split; [exact Hc|].
  intros Hrend. unfold copy_click. rewrite Hrend. exact Hc.
Qed.

(** C7, as amended.  The copy handler never adds an error notification.  When
    the write is granted the clipboard receives the text and the confirmation
    is added; when the host denies the write the confirmation is added all
    the same and the clipboard is unchanged; when the host has no clipboard
    object the handler throws before any notification and changes nothing. *)
Theorem copy_notifications (h : clipboard_host) (s : State) :
  let text := to_string (js_or (fullReport s) (VStr "")) in
  let s' := exec (copy_onClick h) s in
  match h with
  | ClipboardGranted =>
      fst (copy_onClick h s) = inr tt /\
      toasts s' = (toasts s ++ [copied_toast])%list /\
      clipboard s' = Some text
  | ClipboardDenied =>
      fst (copy_onClick h s) = inr tt /\
      toasts s' = (toasts s ++ [copied_toast])%list /\
      clipboard s' = clipboard s
  | ClipboardMissing =>
      (exists e, fst (copy_onClick h s) = inl e) /\ s' = s
  end /\
  variant copied_toast = None /\
  (forall t, In t (toasts s') -> In t (toasts s) \/ t = copied_toast).
Proof.
  intros text s'. subst text s'. destruct s as [a b c d e f g h' i j k l].
  destruct h; unfold exec, copy_onClick, bind; cbn [writeText update ret throw fst snd fullReport].
  - split; [repeat split|]. split; [reflexivity|].
    cbn [toast update snd toasts with_toasts]. intros t Ht.
    apply in_app_or in Ht. destruct Ht as [Ht | [Ht | []]]; [left; exact Ht | right; symmetry; exact Ht].
  - split; [repeat split|]. split; [reflexivity|].
    cbn [toast update snd toasts with_toasts]. intros t Ht.
    apply in_app_or in Ht. destruct Ht as [Ht | [Ht | []]]; [left; exact Ht | right; symmetry; exact Ht].
  - split; [split; [eexists; reflexivity | reflexivity]|]. split; [reflexivity|].
    intros t Ht. left. exact Ht.
Qed.

(** C10.  When the document has no element with the id of the report section,
    the PDF export returns at once: the state is unchanged, so nothing is
    captured, no download is offered and no notification is added, whatever
    the capture would have answered. *)
Theorem handleDownloadPDF_without_report_section
    (c : capture_outcome) (s : State) :
  ~ In "report-section" (document_ids s) ->
  handleDownloadPDF c s = (inr tt, s) /\
  downloads (exec (handleDownloadPDF c) s) = downloads s /\
  toasts (exec (handleDownloadPDF c) s) = toasts s.
Proof.
  intros Hno.
  assert (Hrun : handleDownloadPDF c s = (inr tt, s)).
  { unfold handleDownloadPDF, bind, getElementById.
    destruct (existsb (String.eqb "report-section") (document_ids s)) eqn:E;
      [|reflexivity].
    apply existsb_exists in E. destruct E as [x [Hin Hx]].
    apply String.eqb_eq in Hx. subst x. contradiction. }
  unfold exec. rewrite Hrun. repeat split.
Qed.

(** The report section is in the document exactly when a truthy report is
    stored. *)
Lemma report_section_in_document (s : State) :
  In "report-section" (document_ids s) <-> report_section_rendered s = true.
Proof.
  unfold document_ids. destruct (report_section_rendered s); split; intros H.
  - reflexivity.
  - apply in_or_app. right. left. reflexivity.
  - apply in_app_or in H. destruct H as [H | []].
    cbn in H. repeat (destruct H as [H | H]; [discriminate H|]). destruct H.
  - discriminate H.
Qed.

(** ** The JSON text of strings and of form data *)

Example quote_plain :
  list_ascii_of_string (quote "Ada") =
    [dquote; "A"; "d"; "a"; dquote]%char.
Proof. reflexivity. Qed.

Example quote_escapes :
  list_ascii_of_string (quote (String dquote (String backslash (String (ascii_of_N 10) "")))) =
    [dquote; backslash; dquote; backslash; backslash; backslash; "n"; dquote]%char.
Proof. reflexivity. Qed.

Example quote_control :
  list_ascii_of_string (quote (String (ascii_of_N 31) "")) =
    [dquote; backslash; "u"; "0"; "0"; "1"; "f"; dquote]%char.
Proof. reflexivity. Qed.

Example stringify_without_website :
  JSON_stringify (FormData_value (mkFormData "Ada" "a@b.c" "0123456789" None)) =
    Some ("{" ++ quote "name" ++ ":" ++ quote "Ada" ++ "," ++
          quote "email" ++ ":" ++ quote "a@b.c" ++ "," ++
          quote "phone" ++ ":" ++ quote "0123456789" ++ "}").
Proof. reflexivity. Qed.

Example stringify_escapes :
  JSON_stringify
    (FormData_value
       (mkFormData (String "a" (String dquote ("b\c" ++ String (ascii_of_N 10) "")))
                   "e" "p" None)) =
    Some (dq "{'name':'a\'b\\c\n','email':'e','phone':'p'}").
Proof. reflexivity. Qed.

Example stringify_nested :
  JSON_stringify (VArr [VNum (-5); VUndefined; VNull; VBool true;
                        VObj [("a", VUndefined); ("b", VNum 0)]]) =
    Some ("[-5,null,null,true,{" ++ quote "b" ++ ":0}]").
Proof. reflexivity. Qed.

(** ** Validation *)










(** ** Valid submissions *)

Lemma submit_valid (s : State) :
  button_disabled s = false -> checkValidity s = true ->
  valid (values s) = true ->
  submit s =
    with_inflight (inflight s ++ [AwaitingFetch])
      (with_requests (requests s ++ [request_of (values s)])
         (with_fullReport VNull
            (with_isSubmitting true (with_errors no_errors s)))).
Proof.
  intros Hen Hhost Hv. unfold submit. rewrite Hen, Hhost. cbn [negb].
  unfold valid in Hv. unfold exec, handleSubmit.
  destruct (resolver (values s)) as [e | data] eqn:Hres; [discriminate Hv|].
  assert (Hd : data = values s).
  { unfold resolver in Hres. destruct (has_errors (formSchema (values s)));
      [discriminate Hres | injection Hres as <-; reflexivity]. }
  subst data. destruct s; reflexivity.
Qed.

Lemma stringify_FormData (d : FormData) :
  JSON_stringify (FormData_value d) =
    Some ("{" ++
          join "," ([member "name" (name d); member "email" (email d);
                     member "phone" (phone d)] ++
                    match website d with
                    | Some w => [member "website" w]
                    | None => []
                    end) ++ "}").
Proof.
  destruct d as [n e p [w|]]; reflexivity.
Qed.

(** ** One submission at a time *)

Lemma submit_disabled (s : State) : button_disabled s = true -> submit s = s.
Proof. intros H. unfold submit. rewrite H. reflexivity. Qed.

Lemma submit_blocked (s : State) :
  checkValidity s = false -> submit s = s.
Proof.
  intros Hhost. unfold submit. rewrite Hhost.
  destruct (button_disabled s); reflexivity.
Qed.

Lemma submit_invalid (s : State) :
  button_disabled s = false -> checkValidity s = true ->
  valid (values s) = false ->
  submit s = with_errors (formSchema (values s)) s.
Proof.
  intros Hen Hhost Hv. unfold submit. rewrite Hen, Hhost. cbn [negb].
  unfold exec, handleSubmit.
  unfold valid in Hv. unfold resolver in *.
  destruct (has_errors (formSchema (values s))); [reflexivity | discriminate Hv].
Qed.

Lemma after_fetch_cases (o : fetch_outcome) (s : State) :
  (exists r, o = Responded r /\ ok r = true /\
             onSubmit_after_fetch o s = (inr (Some (AwaitingBody r)), s)) \/
  onSubmit_after_fetch o s =
    (inr None, with_isSubmitting false (with_toasts (toasts s ++ [failure_toast]) s)).
Proof.
  unfold onSubmit_after_fetch, bind. destruct o as [|r]; cbn [fetch_settle throw ret].
  - right. reflexivity.
  - destruct (ok r) eqn:Hok; cbn [negb throw ret].
    + left. exists r. repeat split. exact Hok.
    + right. reflexivity.
Qed.

Lemma after_body_cases (r : Response) (s : State) :
  exec (onSubmit_after_body r) s =
    with_isSubmitting false (with_toasts (toasts s ++ [failure_toast]) s) \/
  exists report,
    exec (onSubmit_after_body r) s =
      with_isSubmitting false
        (with_timers (timers s ++ [(now s + 3000)%N])
           (with_errors no_errors
              (with_values empty_values
                 (with_isSubmitted true
                    (with_toasts (toasts s ++ [success_toast])
                       (with_fullReport report s)))))).
Proof.
  unfold exec, onSubmit_after_body, try_catch_finally, bind, response_json.
  destruct (json r) as [|v]; cbn [throw ret].
  - left. reflexivity.
  - unfold lift. destruct (get_prop v "full_report") as [e | report].
    + left. reflexivity.
    + right. exists report. destruct s; reflexivity.
Qed.

Lemma advance_eq (dt : N) (s : State) :
  let s1 := with_timers (filter (fun d => negb (d <=? now s + dt)%N) (timers s))
                        (with_now (now s + dt)%N s) in
  advance dt s = s1 \/ advance dt s = with_isSubmitted false s1.
Proof.
  intros s1. unfold advance. rewrite fire_all. fold s1.
  destruct (filter (fun d => (d <=? now s + dt)%N) (timers s));
    [left | right]; reflexivity.
Qed.

Lemma copy_click_cases (h : clipboard_host) (s : State) :
  copy_click h s = s \/
  copy_click h s = with_toasts (toasts s ++ [copied_toast]) s \/
  exists text,
    copy_click h s =
      with_toasts (toasts s ++ [copied_toast]) (with_clipboard (Some text) s).
Proof.
  unfold copy_click. destruct (report_section_rendered s); [|left; reflexivity].
  unfold exec, copy_onClick, bind. destruct h; cbn [writeText update ret throw snd].
  - right. right. eexists. destruct s; reflexivity.
  - right. left. reflexivity.
  - left. reflexivity.
Qed.

Lemma pdf_click_cases (c : capture_outcome) (s : State) :
  pdf_click c s = s \/
  pdf_click c s = with_downloads (downloads s ++ ["seo-report.pdf"]) s.
Proof.
  unfold pdf_click. destruct (report_section_rendered s); [|left; reflexivity].
  unfold exec, handleDownloadPDF, bind, getElementById.
  destruct (existsb _ (document_ids s)); [|left; reflexivity].
  destruct c; cbn [html2canvas throw ret snd]; [left | right]; reflexivity.
Qed.

Lemma step_single_flight (e : event) (s : State) :
  single_flight s -> single_flight (step e s).
Proof.
  intros H. destruct e as [d | | i o | i | dt | h | c]; cbn [step].
  - destruct s; exact H.
  - destruct (button_disabled s) eqn:Hen; [rewrite submit_disabled; assumption|].
    destruct (checkValidity s) eqn:Hhost;
      [|rewrite submit_blocked; assumption].
    destruct (valid (values s)) eqn:Hv.
    + rewrite (submit_valid s Hen Hhost Hv). right. exists AwaitingFetch.
      destruct H as [[Hi _] | [p [_ [Hs _]]]].
      * destruct s; cbn in *; subst; repeat split.
      * unfold button_disabled in Hen. congruence.
    + rewrite (submit_invalid s Hen Hhost Hv). destruct s; exact H.
  - unfold fetch_settled.
    destruct H as [[Hi Hs] | [p [Hi [Hs Hr]]]]; rewrite Hi.
    + destruct i; cbn [nth_error]; left; split; assumption.
    + destruct i as [|i]; cbn [nth_error];
        [|destruct i; right; exists p; repeat split; assumption].
      destruct p as [|r]; [|right; exists (AwaitingBody r); repeat split; assumption].
      destruct (after_fetch_cases o s) as [[r [_ [_ ->]]] | ->].
      * right. exists (AwaitingBody r). rewrite Hi.
        destruct s; cbn in *; subst; repeat split.
      * left. destruct s; cbn in *; subst; split; reflexivity.
  - unfold body_settled.
    destruct H as [[Hi Hs] | [p [Hi [Hs Hr]]]]; rewrite Hi.
    + destruct i; cbn [nth_error]; left; split; assumption.
    + destruct i as [|i]; cbn [nth_error];
        [|destruct i; right; exists p; repeat split; assumption].
      destruct p as [|r]; [right; exists AwaitingFetch; repeat split; assumption|].
      cbv zeta. left.
      destruct (after_body_cases r s) as [-> | [report ->]];
        destruct s; cbn in *; subst; split; reflexivity.
  - destruct (advance_eq dt s) as [-> | ->]; destruct s; exact H.
  - destruct (copy_click_cases h s) as [-> | [-> | [text ->]]];
      [assumption | destruct s; exact H | destruct s; exact H].
  - destruct (pdf_click_cases c s) as [-> | ->]; [assumption | destruct s; exact H].
Qed.

Lemma run_single_flight (evs : list event) (s : State) :
  single_flight s -> single_flight (run evs s).
Proof.
  revert s. induction evs as [|e evs IH]; intros s H; [exact H|].
  cbn [run fold_left]. apply IH, step_single_flight, H.
Qed.

Lemma init_single_flight : single_flight init.
Proof. left. split; reflexivity. Qed.

Lemma step_requests (e : event) (s : State) :
  e <> SubmitTrigger -> requests (step e s) = requests s.
Proof.
  intros He. destruct e as [d | | i o | i | dt | h | c]; cbn [step].
  - destruct s; reflexivity.
  - contradiction.
  - unfold fetch_settled. destruct (nth_error (inflight s) i) as [[|r]|]; try reflexivity.
    destruct (after_fetch_cases o s) as [[r [_ [_ ->]]] | ->]; destruct s; reflexivity.
  - unfold body_settled. destruct (nth_error (inflight s) i) as [[|r]|]; try reflexivity.
    cbv zeta. destruct (after_body_cases r s) as [-> | [report ->]]; destruct s; reflexivity.
  - destruct (advance_eq dt s) as [-> | ->]; destruct s; reflexivity.
  - destruct (copy_click_cases h s) as [-> | [-> | [text ->]]];
      [reflexivity | destruct s; reflexivity | destruct s; reflexivity].
  - destruct (pdf_click_cases c s) as [-> | ->]; [reflexivity | destruct s; reflexivity].
Qed.


(** The same outcomes at the events that settle a suspended call, whatever
    happened on the page since the request left. *)
Lemma fetch_settled_failure (i : nat) (o : fetch_outcome) (s : State) :
  nth_error (inflight s) i = Some AwaitingFetch ->
  (o = NetworkFailure \/ exists r, o = Responded r /\ ok r = false) ->
  fetch_settled i o s =
    with_inflight (remove_nth i (inflight s))
      (with_isSubmitting false (with_toasts (toasts s ++ [failure_toast]) s)).
Proof.
  intros Hi Ho. unfold fetch_settled. rewrite Hi.
  unfold onSubmit_after_fetch, bind.
  destruct Ho as [-> | [r [-> Hok]]]; cbn [fetch_settle throw ret].
  - destruct s; reflexivity.
  - rewrite Hok. destruct s; reflexivity.
Qed.

Lemma body_settled_report
    (i : nat) (r : Response) (props : list (string * value)) (report : string)
    (s : State) :
  nth_error (inflight s) i = Some (AwaitingBody r) ->
  json r = BodyJson (VObj props) ->
  lookup "full_report" props = Some (VStr report) ->
  body_settled i s =
    with_inflight (remove_nth i (inflight s))
      (with_isSubmitting false
         (with_timers (timers s ++ [(now s + 3000)%N])
            (with_errors no_errors
               (with_values empty_values
                  (with_isSubmitted true
                     (with_toasts (toasts s ++ [success_toast])
                        (with_fullReport (VStr report) s))))))).
Proof.
  intros Hi Hj Hl. unfold body_settled. rewrite Hi.
  unfold exec, onSubmit_after_body, try_catch_finally, bind, response_json, lift.
  rewrite Hj. cbn [ret get_prop]. rewrite Hl. destruct s; reflexivity.
Qed.

(** A submission from an idle form, followed through its two suspensions with
    no other event in between, is one run of [onSubmit]. *)
Lemma run_submission (o : fetch_outcome) (s : State) :
  isSubmitting s = false -> inflight s = [] ->
  checkValidity s = true -> valid (values s) = true ->
  run [SubmitTrigger; FetchSettled 0 o; BodySettled 0] s =
    exec (onSubmit (values s) o) (with_errors no_errors s).
Proof.
  intros Hs Hi Hhost Hv. cbn [run fold_left step].
  rewrite (submit_valid s Hs Hhost Hv). clear Hhost.
  destruct s as [a b c d e f g h i j k l]. cbn in Hs, Hi, Hv. subst a h.
  unfold fetch_settled, body_settled, exec, onSubmit_after_fetch, onSubmit_after_body,
    onSubmit, fetch, try_catch_finally, bind, response_json, lift.
  cbn [inflight with_inflight app nth_error with_requests with_fullReport
       with_isSubmitting with_errors isSubmitting isSubmitted fullReport values
       errors toasts requests now timers clipboard downloads
       setIsSubmitting setFullReport update fetch_call].
  destruct o as [|r]; cbn [fetch_settle throw ret]; [reflexivity|].
  destruct (ok r); cbn [negb throw ret]; [|reflexivity].
  cbn [replace_nth inflight with_inflight nth_error].
  destruct (json r) as [|v]; cbn [throw ret]; [reflexivity|].
  destruct (get_prop v "full_report"); reflexivity.
Qed.

(** ** What the schema accepts *)

(** X1.  The schema accepts form data exactly when the name has at least 2
    code units, the email is an address, the phone has at least 10 code units
    and the website is absent, empty or a URL; accepted data reaches the
    handler unchanged. *)
Theorem formSchema_accepts_exactly (d : FormData) :
  (valid d = true <->
   (2 <= String.length (name d))%nat /\
   is_email (email d) = true /\
   (10 <= String.length (phone d))%nat /\
   (website d = None \/ website d = Some "" \/
    exists w, website d = Some w /\ is_url w = true)) /\
  (valid d = true -> resolver d = inr d).
Proof.
  destruct d as [n e p w]. unfold valid, resolver, formSchema, has_errors.
  cbn [name email phone website err_name err_email err_phone err_website].
  unfold check_name, check_email, check_phone, check_website.
  destruct (Nat.ltb_spec (String.length n) 2) as [Hn | Hn];
    [split; [split; [discriminate | lia] | discriminate]|].
  destruct (is_email e) eqn:He;
    [|split; [split; [discriminate | intros [_ [H _]]; discriminate H] | discriminate]].
  destruct (Nat.ltb_spec (String.length p) 10) as [Hp | Hp];
    [split; [split; [discriminate | lia] | discriminate]|].
  destruct w as [w|].
  - destruct (is_url w) eqn:Hu.
    + split; [|reflexivity]. split; [|reflexivity].
      intros _. repeat split; try assumption. right. right. exists w. split; [reflexivity | exact Hu].
    + destruct (String.eqb_spec w "") as [-> | Hne].
      * split; [|reflexivity]. split; [|reflexivity].
        intros _. repeat split; try assumption. right. left. reflexivity.
      * split; [|discriminate]. split; [discriminate|].
        intros [_ [_ [_ [H | [H | [w' [H1 H2]]]]]]].
        -- discriminate H.
        -- injection H as H. contradiction.
        -- injection H1 as <-. congruence.
  - split; [|reflexivity]. split; [|reflexivity].
    intros _. repeat split; try assumption. left. reflexivity.
Qed.

(** ** What every run of the page keeps *)

Lemma submit_cases (s : State) :
  submit s = s \/
  submit s = with_errors (formSchema (values s)) s \/
  (valid (values s) = true /\ button_disabled s = false /\
   submit s =
     with_inflight (inflight s ++ [AwaitingFetch])
       (with_requests (requests s ++ [request_of (values s)])
          (with_fullReport VNull
             (with_isSubmitting true (with_errors no_errors s))))).
Proof.
  destruct (button_disabled s) eqn:Hen; [left; apply submit_disabled, Hen|].
  destruct (checkValidity s) eqn:Hhost;
    [|left; apply submit_blocked, Hhost].
  destruct (valid (values s)) eqn:Hv.
  - right. right. split; [reflexivity|]. split; [reflexivity|]. apply submit_valid; assumption.
  - right. left. apply submit_invalid; assumption.
Qed.

(** X2.  Whatever happens on the page, every request that it has sent goes to
    the endpoint with the method POST and carries the JSON text of form data
    that the schema accepts: data with a field error never leaves. *)
Theorem only_valid_data_is_sent (evs : list event) :
  Forall (fun r => req_url r = endpoint /\ req_method r = "POST" /\
                   exists d, valid d = true /\
                             req_body r = JSON_stringify (FormData_value d))
         (requests (run evs init)).
Proof.
  assert (Hgen : forall s, Forall sent_for_valid_data (requests s) ->
                           Forall sent_for_valid_data (requests (run evs s))).
  { induction evs as [|e evs IH]; intros s H; [exact H|].
    cbn [run fold_left]. apply IH.
    destruct e as [d | | i o | i | dt | h | c];
      try (rewrite step_requests; [exact H | discriminate]).
    cbn [step]. destruct (submit_cases s) as [-> | [-> | [Hv [_ ->]]]].
    - exact H.
    - destruct s; exact H.
    - replace (requests _) with (requests s ++ [request_of (values s)])%list
        by (destruct s; reflexivity).
      apply Forall_app. split; [exact H|].
      constructor; [|constructor]. exists (values s). split; [exact Hv | reflexivity]. }
  specialize (Hgen init (Forall_nil _)).
  eapply Forall_impl; [|exact Hgen].
  intros r [d [Hv ->]]. split; [reflexivity|]. split; [reflexivity|].
  exists d. split; [exact Hv | reflexivity].
Qed.

(** X3.  Every run of the submit handler adds exactly one notification,
    the confirmation or the failure notice, whatever the host answers, and
    removes none. *)
Theorem one_notification_per_submission
    (data : FormData) (o : fetch_outcome) (s : State) :
  exists t, (t = success_toast \/ t = failure_toast) /\
            toasts (exec (onSubmit data o) s) = (toasts s ++ [t])%list.
Proof.
  unfold exec. destruct o as [|r].
  - rewrite onSubmit_network_failure. exists failure_toast. split; [right|]; reflexivity.
  - destruct (ok r) eqn:Hok.
    + destruct (json r) as [|v] eqn:Hj.
      * rewrite (onSubmit_body_invalid data r s Hok Hj).
        exists failure_toast. split; [right|]; reflexivity.
      * rewrite (onSubmit_body_json data r v s Hok Hj).
        destruct (get_prop v "full_report").
        -- exists failure_toast. split; [right|]; reflexivity.
        -- exists success_toast. split; [left|]; reflexivity.
    + rewrite (onSubmit_not_ok data r s Hok).
      exists failure_toast. split; [right|]; reflexivity.
Qed.

(** X5.  While a call of the submit handler is suspended, in any state the
    page can reach, the report is null and its section is not rendered, so
    the copy and PDF buttons do not exist: such clicks change nothing. *)
Theorem exports_unavailable_in_flight (evs : list event) :
  let s := run evs init in
  inflight s <> [] ->
  fullReport s = VNull /\
  report_section_rendered s = false /\
  ~ In "report-section" (document_ids s) /\
  (forall h, step (CopyClick h) s = s) /\
  (forall c, step (PdfClick c) s = s).
Proof.
  intros s Hne.
  assert (H : single_flight s) by apply run_single_flight, init_single_flight.
  destruct H as [[Hi _] | [p [_ [_ Hr]]]]; [contradiction|].
  assert (Hrend : report_section_rendered s = false).
  { unfold report_section_rendered. rewrite Hr. reflexivity. }
  split; [exact Hr|]. split; [exact Hrend|]. split; [|split].
  - intros Hin. apply report_section_in_document in Hin. congruence.
  - intros h. cbn [step]. unfold copy_click. rewrite Hrend. reflexivity.
  - intros c. cbn [step]. unfold pdf_click. rewrite Hrend. reflexivity.
Qed.

Lemma existsb_filter {A} (p : A -> bool) (l : list A) :
  existsb p l = match filter p l with [] => false | _ :: _ => true end.
Proof.
  induction l as [|a l IH]; [reflexivity|].
  cbn [existsb filter]. destruct (p a); [reflexivity | exact IH].
Qed.

Lemma filter_none_due {A} (p : A -> bool) (l : list A) :
  existsb p l = false -> filter (fun d => negb (p d)) l = l.
Proof.
  induction l as [|a l IH]; [reflexivity|].
  cbn [existsb filter]. destruct (p a); [discriminate|].
  cbn [orb negb]. intros H. rewrite (IH H). reflexivity.
Qed.

Lemma advance_spec (dt : N) (s : State) :
  let due := fun d => (d <=? now s + dt)%N in
  let s1 := with_timers (filter (fun d => negb (due d)) (timers s))
                        (with_now (now s + dt)%N s) in
  advance dt s = if existsb due (timers s) then with_isSubmitted false s1 else s1.
Proof.
  intros due s1. unfold advance. rewrite fire_all. fold due. fold s1.
  rewrite existsb_filter. destruct (filter due (timers s)); reflexivity.
Qed.

Ltac fields :=
  cbn [isSubmitting isSubmitted fullReport values errors toasts requests inflight
       now timers clipboard downloads
       with_isSubmitting with_isSubmitted with_fullReport with_values with_errors
       with_toasts with_requests with_inflight with_now with_timers with_clipboard
       with_downloads] in *.

Lemma step_timers_pending (e : event) (s : State) :
  timers_pending s -> timers_pending (step e s).
Proof.
  intros H. destruct e as [d | | i o | i | dt | h | c]; cbn [step].
  - destruct s; exact H.
  - destruct (submit_cases s) as [-> | [-> | [_ [_ ->]]]];
      [exact H | destruct s; exact H | destruct s; exact H].
  - unfold fetch_settled. destruct (nth_error (inflight s) i) as [[|r]|]; try exact H.
    destruct (after_fetch_cases o s) as [[r [_ [_ ->]]] | ->]; destruct s; exact H.
  - unfold body_settled. destruct (nth_error (inflight s) i) as [[|r]|]; try exact H.
    cbv zeta. destruct (after_body_cases r s) as [-> | [report ->]].
    + destruct s; exact H.
    + destruct s as [a b c d e f g h k j l m]. destruct H as [H1 H2].
      unfold timers_pending. fields. split.
      * apply Forall_app. split; [exact H1|].
        constructor; [lia | constructor].
      * intros _. destruct j; discriminate.
  - rewrite advance_spec. cbv zeta. destruct H as [H1 H2].
    assert (Hkept : Forall (fun d => (now s + dt < d <= now s + dt + 3000)%N)
                      (filter (fun d => negb (d <=? now s + dt)%N) (timers s))).
    { apply Forall_forall. intros d Hd. apply filter_In in Hd. destruct Hd as [Hd Hn].
      rewrite Forall_forall in H1. specialize (H1 d Hd).
      apply negb_true_iff, N.leb_gt in Hn. lia. }
    destruct (existsb (fun d => (d <=? now s + dt)%N) (timers s)) eqn:Hex.
    + destruct s; split; [exact Hkept | discriminate].
    + rewrite (filter_none_due (fun d => (d <=? now s + dt)%N) _ Hex) in Hkept |- *.
      destruct s; split; [exact Hkept | exact H2].
  - destruct (copy_click_cases h s) as [-> | [-> | [text ->]]];
      [exact H | destruct s; exact H | destruct s; exact H].
  - destruct (pdf_click_cases c s) as [-> | ->]; [exact H | destruct s; exact H].
Qed.

Lemma run_timers_pending (evs : list event) (s : State) :
  timers_pending s -> timers_pending (run evs s).
Proof.
  revert s. induction evs as [|e evs IH]; intros s H; [exact H|].
  cbn [run fold_left]. apply IH, step_timers_pending, H.
Qed.

(** X4.  In every state the page can reach, each pending timer is due after
    now and at most 3000 ms from now, and the Success flag is set only while
    such a timer is pending; so once 3000 ms or more pass the flag is clear
    and no timer is left, however many submissions succeeded. *)
Theorem success_flag_expires (evs : list event) :
  let s := run evs init in
  Forall (fun d => (now s < d <= now s + 3000)%N) (timers s) /\
  (isSubmitted s = true -> timers s <> []) /\
  (forall dt, (3000 <= dt)%N ->
   isSubmitted (advance dt s) = false /\ timers (advance dt s) = []).
Proof.
  intros s.
  assert (H : timers_pending s).
  { apply run_timers_pending. split; [constructor | discriminate]. }
  destruct H as [H1 H2]. split; [exact H1|]. split; [exact H2|].
  intros dt Hdt.
  assert (Hall : forall d, In d (timers s) -> (d <=? now s + dt)%N = true).
  { intros d Hd. rewrite Forall_forall in H1. specialize (H1 d Hd).
    apply N.leb_le. lia. }
  assert (Hkept : filter (fun d => negb (d <=? now s + dt)%N) (timers s) = []).
  { destruct (filter _ (timers s)) as [|d rest] eqn:E; [reflexivity|].
    assert (Hd : In d (filter (fun d => negb (d <=? now s + dt)%N) (timers s)))
      by (rewrite E; left; reflexivity).
    apply filter_In in Hd. destruct Hd as [Hd Hn].
    rewrite (Hall d Hd) in Hn. discriminate Hn. }
  rewrite advance_spec. cbv zeta. rewrite Hkept.
  destruct (existsb (fun d => (d <=? now s + dt)%N) (timers s)) eqn:Hex.
  - destruct s; split; reflexivity.
  - assert (Hsub : isSubmitted s = false).
    { destruct (isSubmitted s); [|reflexivity].
      destruct (timers s) as [|d rest] eqn:Et; [exfalso; apply H2; reflexivity|].
      cbn [existsb] in Hex. rewrite (Hall d (or_introl eq_refl)) in Hex.
      discriminate Hex. }
    destruct s; split; [exact Hsub | reflexivity].
Qed.

(** ** Submitting again *)

Lemma fetch_settled_ok (i : nat) (r : Response) (s : State) :
  nth_error (inflight s) i = Some AwaitingFetch -> ok r = true ->
  fetch_settled i (Responded r) s =
    with_inflight (replace_nth i (AwaitingBody r) (inflight s)) s.
Proof.
  intros Hi Hok. unfold fetch_settled. rewrite Hi.
  unfold onSubmit_after_fetch, bind. cbn [fetch_settle ret]. rewrite Hok. reflexivity.
Qed.

(** X6.  After a submission from an idle form with inputs that pass the
    host's check and the schema has failed,
    by a network failure or a response outside 200-299, the button is enabled
    and the inputs are as they were, so that a second trigger sends the same
    request again: the failure can be retried as it stands. *)
Theorem retry_after_failure (o : fetch_outcome) (s : State) :
  isSubmitting s = false -> inflight s = [] ->
  checkValidity s = true -> valid (values s) = true ->
  (o = NetworkFailure \/ exists r, o = Responded r /\ ok r = false) ->
  let s1 := run [SubmitTrigger; FetchSettled 0 o] s in
  button_disabled s1 = false /\
  values s1 = values s /\
  requests (step SubmitTrigger s1) =
    (requests s ++ [request_of (values s); request_of (values s)])%list /\
  inflight (step SubmitTrigger s1) = [AwaitingFetch].
Proof.
  intros Hs Hi Hhost Hv Ho s1.
  assert (Hs1 : s1 =
    with_inflight []
      (with_isSubmitting false
         (with_toasts (toasts s ++ [failure_toast])
            (with_requests (requests s ++ [request_of (values s)])
               (with_fullReport VNull (with_errors no_errors s)))))).
  { unfold s1. cbn [run fold_left step]. rewrite (submit_valid s Hs Hhost Hv).
    rewrite fetch_settled_failure; [|destruct s; cbn in *; subst; reflexivity | exact Ho].
    destruct s; cbn in *; subst; reflexivity. }
  assert (Hen1 : button_disabled s1 = false) by (rewrite Hs1; reflexivity).
  assert (Hval1 : values s1 = values s) by (rewrite Hs1; destruct s; reflexivity).
  split; [exact Hen1|]. split; [exact Hval1|].
  cbn [step].
  rewrite submit_valid;
    [|exact Hen1
     |unfold checkValidity in Hhost |- *; rewrite Hval1; exact Hhost
     |rewrite Hval1; exact Hv].
  rewrite Hval1, Hs1. destruct s. cbn. rewrite <- app_assoc. split; reflexivity.
Qed.

(** X7.  After a submission from an idle form has succeeded, the inputs are
    empty: a further trigger without new input sends no request and starts
    no call, reports the empty name and phone among the field errors, and
    leaves the stored report as it is. *)
Theorem resubmit_after_success_is_blocked
    (r : Response) (props : list (string * value)) (report : string) (s : State) :
  isSubmitting s = false -> inflight s = [] ->
  checkValidity s = true -> valid (values s) = true ->
  ok r = true -> json r = BodyJson (VObj props) ->
  lookup "full_report" props = Some (VStr report) ->
  let s1 := run [SubmitTrigger; FetchSettled 0 (Responded r); BodySettled 0] s in
  let s2 := step SubmitTrigger s1 in
  values s1 = empty_values /\
  requests s2 = requests s1 /\
  inflight s2 = [] /\
  err_name (errors s2) = Some "Name must be at least 2 characters" /\
  err_phone (errors s2) = Some "Please enter a valid phone number" /\
  fullReport s2 = VStr report.
Proof.
  intros Hs Hi Hhost Hv Hok Hj Hl s1 s2.
  assert (Hs1 : s1 =
    with_inflight []
      (with_isSubmitting false
         (with_timers (timers s ++ [(now s + 3000)%N])
            (with_errors no_errors
               (with_values empty_values
                  (with_isSubmitted true
                     (with_toasts (toasts s ++ [success_toast])
                        (with_fullReport (VStr report)
                           (with_requests (requests s ++ [request_of (values s)])
                              s))))))))).
  { unfold s1. cbn [run fold_left step]. rewrite (submit_valid s Hs Hhost Hv).
    rewrite fetch_settled_ok; [|destruct s; cbn in *; subst; reflexivity | exact Hok].
    rewrite (body_settled_report 0 r props report);
      [|destruct s; cbn in *; subst; reflexivity | exact Hj | exact Hl].
    destruct s; cbn in *; subst; reflexivity. }
  assert (Hval1 : values s1 = empty_values) by (rewrite Hs1; destruct s; reflexivity).
  assert (Hinvalid : valid (values s1) = false) by (rewrite Hval1; reflexivity).
  assert (Hs2 : s2 = with_errors (formSchema (values s1)) s1).
  { unfold s2. cbn [step].
    apply submit_invalid;
      [rewrite Hs1; reflexivity
      |unfold checkValidity; rewrite Hval1; reflexivity
      |exact Hinvalid]. }
  split; [exact Hval1|]. rewrite Hs2, Hval1.
  split; [destruct s1; reflexivity|].
  split; [rewrite Hs1; destruct s; reflexivity|].
  split; [destruct s1; reflexivity|].
  split; [destruct s1; reflexivity|].
  rewrite Hs1. destruct s; reflexivity.
Qed.

(** ** More on the export operations *)

Lemma js_or_truthy (v w : value) : truthy v = true -> js_or v w = v.
Proof. intros H. unfold js_or. rewrite H. reflexivity. Qed.

(** X8.  The clipboard changes at one event only, a click on the copy button
    of a rendered report section that the host grants, and then it receives
    the text of the stored report itself: the empty-string fallback of the
    handler is never what a click writes. *)
Theorem clipboard_changes_only_by_granted_copy (e : event) (s : State) :
  clipboard (step e s) =
    match e with
    | CopyClick ClipboardGranted =>
        if report_section_rendered s then Some (to_string (fullReport s))
        else clipboard s
    | _ => clipboard s
    end.
Proof.
  destruct e as [d | | i o | i | dt | h | c]; cbn [step].
  - destruct s; reflexivity.
  - destruct (submit_cases s) as [-> | [-> | [_ [_ ->]]]];
      [reflexivity | destruct s; reflexivity | destruct s; reflexivity].
  - unfold fetch_settled. destruct (nth_error (inflight s) i) as [[|r]|]; try reflexivity.
    destruct (after_fetch_cases o s) as [[r [_ [_ ->]]] | ->]; destruct s; reflexivity.
  - unfold body_settled. destruct (nth_error (inflight s) i) as [[|r]|]; try reflexivity.
    cbv zeta. destruct (after_body_cases r s) as [-> | [report ->]]; destruct s; reflexivity.
  - destruct (advance_eq dt s) as [-> | ->]; destruct s; reflexivity.
  - unfold copy_click. destruct (report_section_rendered s) eqn:Hrend.
    + unfold exec, copy_onClick, bind.
      rewrite (js_or_truthy (fullReport s) (VStr "") Hrend).
      destruct h; cbn [writeText update ret throw snd]; destruct s; reflexivity.
    + destruct h; reflexivity.
  - destruct (pdf_click_cases c s) as [-> | ->]; [reflexivity | destruct s; reflexivity].
Qed.

(** X9.  With the report section in the document, the PDF export offers
    exactly one file, named seo-report.pdf, and changes nothing else when the
    capture resolves; when the capture is rejected it throws, offers no file
    and shows no notification. *)
Theorem handleDownloadPDF_with_report_section (c : capture_outcome) (s : State) :
  In "report-section" (document_ids s) ->
  match c with
  | CaptureResolves =>
      handleDownloadPDF c s =
        (inr tt, with_downloads (downloads s ++ ["seo-report.pdf"]) s)
  | CaptureRejects =>
      (exists e, fst (handleDownloadPDF c s) = inl e) /\
      exec (handleDownloadPDF c) s = s
  end.
Proof.
  intros Hin.
  assert (Hex : existsb (String.eqb "report-section") (document_ids s) = true).
  { apply existsb_exists. exists "report-section". split; [exact Hin | reflexivity]. }
  unfold exec, handleDownloadPDF, bind, getElementById. rewrite Hex.
  destruct c; cbn [html2canvas throw ret fst snd].
  - split; [eexists; reflexivity | reflexivity].
  - reflexivity.
Qed.

Lemma step_downloads (e : event) (s : State) :
  downloads (step e s) = downloads s \/
  downloads (step e s) = (downloads s ++ ["seo-report.pdf"])%list.
Proof.
  destruct e as [d | | i o | i | dt | h | c]; cbn [step].
  - left. destruct s; reflexivity.
  - left. destruct (submit_cases s) as [-> | [-> | [_ [_ ->]]]];
      [reflexivity | destruct s; reflexivity | destruct s; reflexivity].
  - left. unfold fetch_settled. destruct (nth_error (inflight s) i) as [[|r]|]; try reflexivity.
    destruct (after_fetch_cases o s) as [[r [_ [_ ->]]] | ->]; destruct s; reflexivity.
  - left. unfold body_settled. destruct (nth_error (inflight s) i) as [[|r]|]; try reflexivity.
    cbv zeta. destruct (after_body_cases r s) as [-> | [report ->]]; destruct s; reflexivity.
  - left. destruct (advance_eq dt s) as [-> | ->]; destruct s; reflexivity.
  - left. destruct (copy_click_cases h s) as [-> | [-> | [text ->]]];
      [reflexivity | destruct s; reflexivity | destruct s; reflexivity].
  - destruct (pdf_click_cases c s) as [-> | ->];
      [left; reflexivity | right; destruct s; reflexivity].
Qed.

(** X10.  Whatever happens on the page, every file it has offered for
    download is named seo-report.pdf, and files are offered by clicks on the
    PDF button only. *)
Theorem downloads_are_report_pdfs (evs : list event) :
  Forall (fun f => f = "seo-report.pdf") (downloads (run evs init)) /\
  (forall e s, (forall c, e <> PdfClick c) -> downloads (step e s) = downloads s).
Proof.
  split.
  - assert (Hgen : forall s, Forall (fun f => f = "seo-report.pdf") (downloads s) ->
                     Forall (fun f => f = "seo-report.pdf") (downloads (run evs s))).
    { induction evs as [|e evs IH]; intros s H; [exact H|].
      cbn [run fold_left]. apply IH.
      destruct (step_downloads e s) as [-> | ->]; [exact H|].
      apply Forall_app. split; [exact H|]. constructor; [reflexivity | constructor]. }
    apply Hgen. constructor.
  - intros e s He. destruct e as [d | | i o | i | dt | h | c]; cbn [step].
    + destruct s; reflexivity.
    + destruct (submit_cases s) as [-> | [-> | [_ [_ ->]]]];
        [reflexivity | destruct s; reflexivity | destruct s; reflexivity].
    + unfold fetch_settled. destruct (nth_error (inflight s) i) as [[|r]|]; try reflexivity.
      destruct (after_fetch_cases o s) as [[r [_ [_ ->]]] | ->]; destruct s; reflexivity.
    + unfold body_settled. destruct (nth_error (inflight s) i) as [[|r]|]; try reflexivity.
      cbv zeta. destruct (after_body_cases r s) as [-> | [report ->]]; destruct s; reflexivity.
    + destruct (advance_eq dt s) as [-> | ->]; destruct s; reflexivity.
    + destruct (copy_click_cases h s) as [-> | [-> | [text ->]]];
        [reflexivity | destruct s; reflexivity | destruct s; reflexivity].
    + exfalso. apply (He c). reflexivity.
Qed.

End Form.

(** ** The request body as a code of the form data *)

Lemma append_assoc (a b c : string) : (a ++ b) ++ c = a ++ (b ++ c).
Proof. induction a as [|x a IH]; [reflexivity|]. cbn [append]. rewrite IH. reflexivity. Qed.

Lemma unquote_quote_char (c : ascii) (x : string) :
  unquote_char (quote_char c ++ x) = Some (c, x).
Proof. destruct c as [[] [] [] [] [] [] [] []]; reflexivity. Qed.

Lemma unquote_char_closing (x : string) : unquote_char (String dquote x) = None.
Proof. reflexivity. Qed.

Lemma quote_chars_inj_app (a : string) :
  forall b x y,
    quote_chars a ++ String dquote x = quote_chars b ++ String dquote y ->
    a = b /\ x = y.
Proof.
  induction a as [|c a IH]; intros [|c' b] x y H; cbn [quote_chars append] in H.
  - injection H as H. split; [reflexivity | exact H].
  - apply (f_equal unquote_char) in H. rewrite append_assoc, unquote_quote_char in H.
    rewrite unquote_char_closing in H. discriminate H.
  - apply (f_equal unquote_char) in H. rewrite append_assoc, unquote_quote_char in H.
    rewrite unquote_char_closing in H. discriminate H.
  - apply (f_equal unquote_char) in H. rewrite !append_assoc, !unquote_quote_char in H.
    injection H as Hc H. subst c'. destruct (IH b x y H) as [-> ->]. split; reflexivity.
Qed.

Lemma append_char_inj (c : ascii) (a b : string) :
  String c "" ++ a = String c "" ++ b -> a = b.
Proof. cbn [append]. intros H. injection H as H. exact H. Qed.

Lemma some_inj {A} (a b : A) : Some a = Some b -> a = b.
Proof. intros H. injection H as H. exact H. Qed.

Lemma quote_inj_app (a b x y : string) :
  quote a ++ x = quote b ++ y -> a = b /\ x = y.
Proof.
  unfold quote. cbn [append]. intros H. injection H as H.
  rewrite !append_assoc in H. cbn [append] in H.
  apply quote_chars_inj_app in H. exact H.
Qed.

Lemma member_inj_app (k a b x y : string) :
  member k a ++ x = member k b ++ y -> a = b /\ x = y.
Proof.
  unfold member. rewrite !append_assoc. intros H.
  apply quote_inj_app in H. destruct H as [_ H].
  apply append_char_inj in H. apply quote_inj_app in H. exact H.
Qed.

(** X11.  Different form data give different request bodies: the JSON text
    keeps every code unit of every field apart, whatever quotes, backslashes
    or commas the fields contain, and an absent website differs from an empty
    one. *)
Theorem request_body_determines_data (d d' : FormData) :
  d <> d' ->
  JSON_stringify (FormData_value d) <> JSON_stringify (FormData_value d') /\
  request_of d <> request_of d'.
Proof.
  intros Hne.
  assert (Hinj : JSON_stringify (FormData_value d) =
                 JSON_stringify (FormData_value d') -> d = d').
  { rewrite !stringify_FormData. intros H. apply some_inj in H.
    apply append_char_inj in H.
    destruct d as [n e p w], d' as [n' e' p' w'].
    cbn [name email phone website] in H.
    destruct w as [w|], w' as [w'|]; cbn [app join] in H;
      rewrite !append_assoc in H.
    all: apply member_inj_app in H; destruct H as [-> H]; apply append_char_inj in H.
    all: apply member_inj_app in H; destruct H as [-> H]; apply append_char_inj in H.
    all: apply member_inj_app in H; destruct H as [-> H].
    - apply append_char_inj in H. apply member_inj_app in H.
      destruct H as [-> _]. reflexivity.
    - discriminate H.
    - discriminate H.
    - reflexivity. }
  split.
  - intros H. apply Hne, Hinj, H.
  - intros H. apply Hne, Hinj. unfold request_of in H.
    exact (f_equal req_body H).
Qed.

(** ** Reading the request body back *)
















(** ** The header and the hero section *)

Lemma header_run_app (doc : list string) (a b : list Header.event) (h : Header.State) :
  Header.run doc (a ++ b) h = Header.run doc b (Header.run doc a h).
Proof. unfold Header.run. apply fold_left_app. Qed.

Lemma header_toggles (doc : list string) (n : nat) (h : Header.State) :
  Header.run doc (repeat Header.MenuButton n) h =
    Header.mkState (xorb (Header.isMenuOpen h) (Nat.odd n)) (Header.scrolls h).
Proof.
  revert h. induction n as [|n IH]; intros h.
  - cbn. rewrite xorb_false_r. destruct h; reflexivity.
  - cbn [repeat Header.run fold_left]. change (fold_left _ ?l ?x) with (Header.run doc l x).
    rewrite IH. rewrite Nat.odd_succ, <- Nat.negb_odd.
    destruct h as [o sc]. cbn. destruct o, (Nat.odd n); reflexivity.
Qed.

Lemma header_closing_event (doc : list string) (e : Header.event) (h : Header.State) :
  e <> Header.MenuButton -> Header.isMenuOpen (Header.step doc e h) = false.
Proof.
  intros He. destruct e; [contradiction | | |]; destruct h as [[] sc]; reflexivity.
Qed.

(** X12.  The mobile menu of the header is open exactly when an odd number of
    clicks on the menu button followed the last other event, or the first
    rendering: every contact button and every mobile link leaves it closed,
    and clicks on the menu button request no scroll. *)
Theorem header_menu_open_by_parity
    (doc : list string) (evs : list Header.event) (n : nat) :
  Header.isMenuOpen (Header.run doc (repeat Header.MenuButton n) Header.init) =
    Nat.odd n /\
  (forall e, e <> Header.MenuButton ->
   Header.isMenuOpen
     (Header.run doc (evs ++ e :: repeat Header.MenuButton n) Header.init) =
     Nat.odd n) /\
  Header.scrolls (Header.run doc (evs ++ repeat Header.MenuButton n) Header.init) =
    Header.scrolls (Header.run doc evs Header.init).
Proof.
  split; [|split].
  - rewrite header_toggles. reflexivity.
  - intros e He. rewrite header_run_app. cbn [Header.run fold_left].
    change (fold_left _ ?l ?x) with (Header.run doc l x).
    rewrite header_toggles. cbn [Header.isMenuOpen].
    change (fold_left _ evs Header.init) with (Header.run doc evs Header.init).
    rewrite (header_closing_event doc e _ He). reflexivity.
  - rewrite header_run_app, header_toggles. reflexivity.
Qed.

Lemma contact_form_in_document (s : State) :
  existsb (String.eqb "contact-form") (document_ids s) = true.
Proof. unfold document_ids. destruct (report_section_rendered s); reflexivity. Qed.

Lemma header_step_scrolls (doc : list string) (e : Header.event) (h : Header.State) :
  Header.scrolls (Header.step doc e h) = Header.scrolls h \/
  (existsb (String.eqb "contact-form") doc = true /\
   Header.scrolls (Header.step doc e h) =
     (Header.scrolls h ++ [mkScroll "contact-form" "smooth"])%list).
Proof.
  destruct h as [o sc].
  destruct e, o;
    unfold Header.step, Header.scrollToForm, Header.toggleMenu, Header.setIsMenuOpen,
      scroll_to;
    cbn [Header.scrolls Header.isMenuOpen];
    try (left; reflexivity);
    destruct (existsb (String.eqb "contact-form") doc);
    cbn [Header.scrolls];
    solve [right; split; reflexivity | left; reflexivity].
Qed.

Lemma page_step_scrolls (doc : list string) (c : Page.click) (h : Header.State) :
  Header.scrolls (Page.step doc c h) = Header.scrolls h \/
  (In "contact-form" doc /\
   Header.scrolls (Page.step doc c h) =
     (Header.scrolls h ++ [mkScroll "contact-form" "smooth"])%list) \/
  (exists l, In (Page.fragment l) doc /\
   Header.scrolls (Page.step doc c h) =
     (Header.scrolls h ++ [mkScroll (Page.fragment l) "auto"])%list).
Proof.
  assert (Hin : forall id, existsb (String.eqb id) doc = true -> In id doc).
  { intros id H. apply existsb_exists in H. destruct H as [x [Hx Heq]].
    apply String.eqb_eq in Heq. subst x. exact Hx. }
  assert (Hhandler : forall e,
            Header.scrolls (Header.step doc e h) = Header.scrolls h \/
            (In "contact-form" doc /\
             Header.scrolls (Header.step doc e h) =
               (Header.scrolls h ++ [mkScroll "contact-form" "smooth"])%list)).
  { intros e. destruct (header_step_scrolls doc e h) as [H | [H1 H2]];
      [left; exact H | right; split; [apply Hin, H1 | exact H2]]. }
  assert (Hlink : forall l log,
            Page.follow_fragment doc (Page.fragment l) log = log \/
            (In (Page.fragment l) doc /\
             Page.follow_fragment doc (Page.fragment l) log =
               (log ++ [mkScroll (Page.fragment l) "auto"])%list)).
  { intros l log. unfold Page.follow_fragment.
    destruct (existsb (String.eqb (Page.fragment l)) doc) eqn:E;
      [right; split; [apply Hin, E | reflexivity] | left; reflexivity]. }
  destruct c as [| | l | l | | |]; cbn [Page.step].
  - destruct (Hhandler Header.MenuButton) as [H | H]; [left | right; left]; exact H.
  - destruct (Hhandler Header.DesktopContact) as [H | H]; [left | right; left]; exact H.
  - cbn [Header.scrolls].
    destruct (Hlink l (Header.scrolls h)) as [-> | [H1 ->]];
      [left; reflexivity | right; right; exists l; split; [exact H1 | reflexivity]].
  - destruct h as [[] sc]; cbn [Header.isMenuOpen]; [|left; reflexivity].
    cbn [Header.step Header.isMenuOpen Header.setIsMenuOpen Header.scrolls].
    destruct (Hlink l sc) as [-> | [H1 ->]];
      [left; reflexivity | right; right; exists l; split; [exact H1 | reflexivity]].
  - destruct (Hhandler Header.MobileContact) as [H | H]; [left | right; left]; exact H.
  - cbn [Header.scrolls]. unfold HeroSection.scrollToForm, scroll_to.
    destruct (existsb (String.eqb "contact-form") doc) eqn:E;
      [right; left; split; [apply Hin, E | reflexivity] | left; reflexivity].
  - left. reflexivity.
Qed.

Lemma only_home_is_a_link_target (s : State) (l : Page.nav_link) :
  In (Page.fragment l) (document_ids s) -> Page.fragment l = "home".
Proof.
  unfold document_ids. intros H. apply in_app_or in H.
  destruct l; [reflexivity | | |]; exfalso;
    (destruct H as [H | H];
     [cbn in H; repeat (destruct H as [H | H]; [discriminate H|]); exact H
     |destruct (report_section_rendered s); cbn in H;
      repeat (destruct H as [H | H]; [discriminate H|]); exact H]).
Qed.

(** X13.  The section of the contact form is in the document in every state
    of the form, so on the page the contact buttons of the header and of the
    hero section always request one smooth scroll to it, and the header's
    also close the menu; in a document without that section they request
    nothing and do not fail.  Over any sequence of clicks on the header and
    the hero section, links included, every scroll goes to an element of the
    document and is either that smooth scroll to the contact form or the
    host following a link to its fragment; on the page the only link with a
    target is the one to the hero section. *)
Theorem contact_buttons_scroll_to_form
    (s : State) (h : Header.State) (log : list Scroll)
    (doc : list string) (cs : list Page.click) :
  HeroSection.scrollToForm (document_ids s) log =
    (log ++ [mkScroll "contact-form" "smooth"])%list /\
  Header.scrollToForm (document_ids s) h =
    Header.mkState false (Header.scrolls h ++ [mkScroll "contact-form" "smooth"]) /\
  (existsb (String.eqb "contact-form") doc = false ->
   HeroSection.scrollToForm doc log = log /\
   Header.scrollToForm doc h = Header.mkState false (Header.scrolls h)) /\
  Forall (fun sc => In (target sc) doc /\
                    (sc = mkScroll "contact-form" "smooth" \/
                     exists l, sc = mkScroll (Page.fragment l) "auto"))
         (Header.scrolls (Page.run doc cs Header.init)) /\
  Forall (fun sc => sc = mkScroll "contact-form" "smooth" \/
                    sc = mkScroll "home" "auto")
         (Header.scrolls (Page.run (document_ids s) cs Header.init)).
Proof.
  assert (Hall : forall doc0,
            Forall (fun sc => In (target sc) doc0 /\
                              (sc = mkScroll "contact-form" "smooth" \/
                               exists l, sc = mkScroll (Page.fragment l) "auto"))
                   (Header.scrolls (Page.run doc0 cs Header.init))).
  { intros doc0.
    assert (Hgen : forall h0,
              Forall (fun sc => In (target sc) doc0 /\
                                (sc = mkScroll "contact-form" "smooth" \/
                                 exists l, sc = mkScroll (Page.fragment l) "auto"))
                     (Header.scrolls h0) ->
              Forall (fun sc => In (target sc) doc0 /\
                                (sc = mkScroll "contact-form" "smooth" \/
                                 exists l, sc = mkScroll (Page.fragment l) "auto"))
                     (Header.scrolls (Page.run doc0 cs h0))).
    { induction cs as [|c cs' IH]; intros h0 H0; [exact H0|].
      cbn [Page.run fold_left]. apply IH.
      destruct (page_step_scrolls doc0 c h0) as [-> | [[Hin ->] | [l [Hin ->]]]].
      - exact H0.
      - apply Forall_app. split; [exact H0|].
        constructor; [|constructor]. split; [exact Hin | left; reflexivity].
      - apply Forall_app. split; [exact H0|].
        constructor; [|constructor]. split; [exact Hin | right; exists l; reflexivity]. }
    apply Hgen. constructor. }
  split; [|split; [|split; [|split]]].
  - unfold HeroSection.scrollToForm, scroll_to. rewrite contact_form_in_document. reflexivity.
  - unfold Header.scrollToForm, scroll_to. rewrite contact_form_in_document. reflexivity.
  - intros Hno. split.
    + unfold HeroSection.scrollToForm, scroll_to. rewrite Hno. reflexivity.
    + unfold Header.scrollToForm, scroll_to. rewrite Hno. reflexivity.
  - apply Hall.
  - eapply Forall_impl; [|apply (Hall (document_ids s))].
    intros sc [Hin [-> | [l ->]]]; [left; reflexivity|].
    right. cbn [target] in Hin.
    rewrite (only_home_is_a_link_target s l Hin). reflexivity.
Qed.

(** ** The theorems at concrete inputs *)



Lemma onSubmit_always_completes_and_reenables_witness :
  isSubmitting (exec (onSubmit sample_data NetworkFailure) init) = false /\
  isSubmitting
    (exec (onSubmit_after_fetch (Responded server_error_response))
          (with_isSubmitting true init)) = false.
Proof.
  destruct (onSubmit_always_completes_and_reenables sample_data NetworkFailure init)
    as [_ [Hsub _]].
  split; [exact Hsub|].
  destruct (onSubmit_always_completes_and_reenables sample_data
              (Responded server_error_response) (with_isSubmitting true init))
    as [_ [_ [_ [[p [Hp Hdone]] _]]]].
  apply Hdone. vm_compute in Hp. injection Hp as Hp. symmetry. exact Hp.
Defined.

Lemma success_stores_report_and_reverts_witness :
  let s' := exec (onSubmit sample_data (Responded (report_response "# Hello"))) init in
  fullReport s' = VStr "# Hello" /\
  button_label s' = MessageSent /\
  toasts s' = [success_toast] /\
  values s' = empty_values /\
  button_label (advance 2999 s') = MessageSent /\
  button_label (advance 3000 s') = SendMessage.
Proof.
  intros s'.
  assert (Hst : (200 <= status (report_response "# Hello") <= 299)%N)
    by (vm_compute; split; discriminate).
  destruct (success_stores_report_and_reverts sample_data
              (report_response "# Hello") [("full_report", VStr "# Hello")]
              "# Hello" init Hst eq_refl eq_refl)
    as [_ [Hrep [_ [Hlab [Hto [Hval [_ [Hrev [_ Hkeep]]]]]]]]].
  split; [exact Hrep|]. split; [exact Hlab|]. split; [exact Hto|].
  split; [exact Hval|]. split; [|exact Hrev].
  apply (Hkeep eq_refl). reflexivity.
Defined.

Lemma failure_clears_report_keeps_inputs_witness :
  let s := with_fullReport (VStr "# Old") (with_values sample_data init) in
  let s' := exec (onSubmit sample_data (Responded server_error_response)) s in
  fullReport s' = VNull /\
  toasts s' = [failure_toast] /\
  values s' = sample_data /\
  button_disabled s' = false /\
  button_label s' = SendMessage.
Proof.
  intros s s'.
  assert (Ho : Responded server_error_response = NetworkFailure \/
               exists r, Responded server_error_response = Responded r /\
                         ~ (200 <= status r <= 299)%N).
  { right. exists server_error_response. split; [reflexivity|].
    vm_compute. intros [_ H]. apply H. reflexivity. }
  destruct (failure_clears_report_keeps_inputs sample_data
              (Responded server_error_response) s Ho)
    as [_ [Hrep [Hto [Hval [_ [_ [_ [_ [Hdis Hlab]]]]]]]]].
  split; [exact Hrep|]. split; [exact Hto|]. split; [exact Hval|].
  split; [exact Hdis|]. exact (Hlab eq_refl).
Defined.

Lemma malformed_body_outcomes_witness :
  (let s' := exec (onSubmit sample_data
                     (Responded (mkResponse 200 BodyInvalid))) init in
   toasts s' = [failure_toast] /\ isSubmitted s' = false) /\
  (let s' := exec (onSubmit sample_data (Responded empty_object_response)) init in
   fullReport s' = VUndefined /\ report_section_rendered s' = false).
Proof.
  split.
  - intros s'.
    assert (Hst : (200 <= status (mkResponse 200 BodyInvalid) <= 299)%N)
      by (vm_compute; split; discriminate).
    destruct (malformed_body_outcomes sample_data (mkResponse 200 BodyInvalid) init Hst)
      as [Hfail _].
    destruct (Hfail (or_introl eq_refl)) as [_ [Hto [Hsub _]]].
    split; [exact Hto | exact Hsub].
  - intros s'.
    assert (Hst : (200 <= status empty_object_response <= 299)%N)
      by (vm_compute; split; discriminate).
    destruct (malformed_body_outcomes sample_data empty_object_response init Hst)
      as [_ [_ Hmiss]].
    exact (Hmiss [] eq_refl eq_refl).
Defined.

Lemma copy_writes_report_verbatim_witness :
  let s := with_fullReport (VStr "# Hello") init in
  clipboard (exec (copy_onClick ClipboardGranted) s) = Some "# Hello" /\
  clipboard (copy_click ClipboardGranted s) = Some "# Hello".
Proof.
  intros s.
  destruct (copy_writes_report_verbatim "# Hello" ClipboardGranted s eq_refl)
    as [_ [Hc Hclick]].
  split; [exact Hc | exact (Hclick eq_refl)].
Defined.

Lemma copy_notifications_witness :
  let s := with_fullReport (VStr "# Hello") init in
  toasts (exec (copy_onClick ClipboardDenied) s) = [copied_toast] /\
  clipboard (exec (copy_onClick ClipboardDenied) s) = None /\
  exec (copy_onClick ClipboardMissing) s = s.
Proof.
  intros s.
  destruct (copy_notifications ClipboardDenied s) as [[_ [Hto Hclip]] _].
  destruct (copy_notifications ClipboardMissing s) as [[_ Hsame] _].
  split; [exact Hto|]. split; [exact Hclip | exact Hsame].
Defined.


Lemma handleDownloadPDF_without_report_section_witness :
  handleDownloadPDF CaptureResolves init = (inr tt, init) /\
  downloads (exec (handleDownloadPDF CaptureResolves) init) = [].
Proof.
  assert (Hno : ~ In "report-section" (document_ids init)).
  { vm_compute. intros H.
    repeat (destruct H as [H | H]; [discriminate H|]). exact H. }
  destruct (handleDownloadPDF_without_report_section CaptureResolves init Hno)
    as [Hrun [Hdl _]].
  split; [exact Hrun | exact Hdl].
Defined.

(** ** Where the handlers differ from what one might expect *)


(** A report stored by an earlier submission is gone after a later submission
    that fails: the handler clears it before it sends the request. *)
Lemma previous_report_is_cleared_on_failure :
  let before :=
    run sample_is_email sample_is_url sample_host_email
        [Edit sample_data; SubmitTrigger;
         FetchSettled 0 (Responded (report_response "# Old")); BodySettled 0;
         Edit sample_data] init in
  let after :=
    run sample_is_email sample_is_url sample_host_email
        [SubmitTrigger; FetchSettled 0 (Responded server_error_response)] before in
  fullReport before = VStr "# Old" /\
  fullReport after = VNull /\
  fullReport after <> fullReport before /\
  toasts after = [success_toast; failure_toast].
Proof.
  vm_compute. repeat split. discriminate.
Qed.

(** A response with status 200 whose body is the empty object is handled as a
    success: confirmation, Success flag, emptied inputs, and no failure
    notification. *)
Lemma empty_object_body_takes_success_path :
  let s :=
    run sample_is_email sample_is_url sample_host_email
        [Edit sample_data; SubmitTrigger;
         FetchSettled 0 (Responded empty_object_response); BodySettled 0] init in
  toasts s = [success_toast] /\
  isSubmitted s = true /\
  button_label s = MessageSent /\
  values s = empty_values /\
  fullReport s = VUndefined /\
  ~ In failure_toast (toasts s).
Proof.
  vm_compute. repeat split. intros [H | []]. discriminate H.
Qed.

(** When the host denies the clipboard write, the copy button still confirms
    the copy, shows no error, and the clipboard is as it was. *)
Lemma denied_copy_is_confirmed :
  let s0 :=
    run sample_is_email sample_is_url sample_host_email
        [Edit sample_data; SubmitTrigger;
         FetchSettled 0 (Responded (report_response "# Hello")); BodySettled 0] init in
  let s := step sample_is_email sample_is_url sample_host_email (CopyClick ClipboardDenied) s0 in
  report_section_rendered s0 = true /\
  toasts s = [success_toast; copied_toast] /\
  clipboard s = None /\
  (forall t, In t (toasts s) -> variant t = None).
Proof.
  vm_compute. repeat split. intros t [<- | [<- | []]]; reflexivity.
Qed.


(** ** The further theorems at concrete inputs *)

Lemma formSchema_accepts_exactly_witness :
  valid sample_is_email sample_is_url sample_data = true /\
  resolver sample_is_email sample_is_url sample_data = inr sample_data.
Proof.
  destruct (formSchema_accepts_exactly sample_is_email sample_is_url sample_data)
    as [[_ Hback] Hres].
  assert (Hv : valid sample_is_email sample_is_url sample_data = true).
  { apply Hback. split; [vm_compute; lia|]. split; [reflexivity|].
    split; [vm_compute; lia|]. right. left. reflexivity. }
  split; [exact Hv | exact (Hres Hv)].
Defined.

Lemma success_flag_expires_witness :
  let s := run sample_is_email sample_is_url sample_host_email
               [Edit sample_data; SubmitTrigger;
                FetchSettled 0 (Responded (report_response "# Hello"));
                BodySettled 0] init in
  timers s <> [] /\ isSubmitted (advance 3000 s) = false.
Proof.
  intros s.
  destruct (success_flag_expires sample_is_email sample_is_url sample_host_email
              [Edit sample_data; SubmitTrigger;
               FetchSettled 0 (Responded (report_response "# Hello"));
               BodySettled 0]) as [_ [Hpending Hclear]].
  split; [exact (Hpending eq_refl)|].
  assert (Hdt : (3000 <= 3000)%N) by lia.
  exact (proj1 (Hclear 3000%N Hdt)).
Defined.

Lemma exports_unavailable_in_flight_witness :
  let s := run sample_is_email sample_is_url sample_host_email [Edit sample_data; SubmitTrigger] init in
  report_section_rendered s = false /\
  step sample_is_email sample_is_url sample_host_email (CopyClick ClipboardGranted) s = s /\
  step sample_is_email sample_is_url sample_host_email (PdfClick CaptureResolves) s = s.
Proof.
  intros s.
  assert (Hne : inflight s <> []) by (vm_compute; discriminate).
  destruct (exports_unavailable_in_flight sample_is_email sample_is_url sample_host_email
              [Edit sample_data; SubmitTrigger] Hne) as [_ [Hrend [_ [Hcopy Hpdf]]]].
  split; [exact Hrend|]. split; [apply Hcopy | apply Hpdf].
Defined.

Lemma retry_after_failure_witness :
  let s := with_values sample_data init in
  let s1 := run sample_is_email sample_is_url sample_host_email
                [SubmitTrigger; FetchSettled 0 NetworkFailure] s in
  button_disabled s1 = false /\
  requests (step sample_is_email sample_is_url sample_host_email SubmitTrigger s1) =
    [request_of sample_data; request_of sample_data].
Proof.
  intros s s1.
  destruct (retry_after_failure sample_is_email sample_is_url sample_host_email NetworkFailure s
              eq_refl eq_refl eq_refl eq_refl (or_introl eq_refl)) as [Hen [_ [Hreq _]]].
  split; [exact Hen | exact Hreq].
Defined.

Lemma resubmit_after_success_is_blocked_witness :
  let s := with_values sample_data init in
  let s1 := run sample_is_email sample_is_url sample_host_email
                [SubmitTrigger; FetchSettled 0 (Responded (report_response "# Hello"));
                 BodySettled 0] s in
  let s2 := step sample_is_email sample_is_url sample_host_email SubmitTrigger s1 in
  requests s2 = requests s1 /\
  err_name (errors s2) = Some "Name must be at least 2 characters" /\
  fullReport s2 = VStr "# Hello".
Proof.
  intros s s1 s2.
  destruct (resubmit_after_success_is_blocked sample_is_email sample_is_url sample_host_email
              (report_response "# Hello") [("full_report", VStr "# Hello")] "# Hello" s
              eq_refl eq_refl eq_refl eq_refl eq_refl eq_refl eq_refl)
    as [_ [Hreq [_ [Hname [_ Hrep]]]]].
  split; [exact Hreq|]. split; [exact Hname | exact Hrep].
Defined.

Lemma handleDownloadPDF_with_report_section_witness :
  let s := with_fullReport (VStr "# Hello") init in
  downloads (exec (handleDownloadPDF CaptureResolves) s) = ["seo-report.pdf"] /\
  exec (handleDownloadPDF CaptureRejects) s = s.
Proof.
  intros s.
  assert (Hin : In "report-section" (document_ids s)).
  { vm_compute. do 6 right. left. reflexivity. }
  pose proof (handleDownloadPDF_with_report_section CaptureResolves s Hin) as Hok.
  pose proof (handleDownloadPDF_with_report_section CaptureRejects s Hin) as Hrej.
  cbv beta iota in Hok, Hrej. split.
  - unfold exec. rewrite Hok. reflexivity.
  - exact (proj2 Hrej).
Defined.

Lemma downloads_are_report_pdfs_witness :
  let s := with_values sample_data init in
  downloads (step sample_is_email sample_is_url sample_host_email SubmitTrigger s) = downloads s.
Proof.
  intros s.
  destruct (downloads_are_report_pdfs sample_is_email sample_is_url sample_host_email []) as [_ Hother].
  apply Hother. intros c. discriminate.
Defined.

Lemma request_body_determines_data_witness :
  JSON_stringify (FormData_value (mkFormData "Ada" "a@b.c" "0123456789" None)) <>
  JSON_stringify (FormData_value (mkFormData "Ada" "a@b.c" "0123456789" (Some ""))).
Proof.
  assert (Hne : mkFormData "Ada" "a@b.c" "0123456789" None <>
                mkFormData "Ada" "a@b.c" "0123456789" (Some ""))
    by discriminate.
  exact (proj1 (request_body_determines_data _ _ Hne)).
Defined.

Lemma header_menu_open_by_parity_witness :
  Header.isMenuOpen
    (Header.run (document_ids init)
       [Header.MenuButton; Header.MobileLink;
        Header.MenuButton; Header.MenuButton; Header.MenuButton]
       Header.init) = true.
Proof.
  destruct (header_menu_open_by_parity (document_ids init) [Header.MenuButton] 3)
    as [_ [Hafter _]].
  assert (He : Header.MobileLink <> Header.MenuButton) by discriminate.
  exact (Hafter Header.MobileLink He).
Defined.

Lemma contact_buttons_scroll_to_form_witness :
  HeroSection.scrollToForm ["home"] [] = [] /\
  Header.scrollToForm ["home"] (Header.mkState true []) = Header.mkState false [].
Proof.
  destruct (contact_buttons_scroll_to_form init (Header.mkState true []) []
              ["home"] []) as [_ [_ [Hmissing _]]].
  destruct (Hmissing eq_refl) as [Hhero Hheader].
  split; [exact Hhero | exact Hheader].
Defined.
